(** * jira_auto_reply: a shallow embedding and its verified properties

    The program is a scheduled job: it loads its configuration from the
    environment, checks a daily reply window, reads a watermark file,
    searches the ticketing system, and for each candidate ticket posts a
    reply, assigns the ticket and applies three transitions.

    Python values are embedded as follows.
    - [str] is [string]; the text handled by the model is ASCII.
    - [int] is [Z].
    - values decoded from JSON are the inductive [json]; a [dict] is an
      association list whose first binding of a key is the dict's value.
    - an exception is a constructor of [exn]; a call that may raise
      returns a [result].
    - code that talks to the network, the clock, the file system or the
      terminal is a state transformer over [World] (section [Program]). *)

From Stdlib Require Import ZArith String Ascii List Bool Lia.
From Stdlib Require Import DecimalString SpecFloat.
From stdpp Require Import gmap strings list.

Local Open Scope Z_scope.

(** ** Exceptions and results *)

Inductive exn : Type :=
  | ValueError (msg : string)
  | KeyError (key : string)
  | IndexError
  | TypeError
  | AttributeError
  | OverflowError
  | OSError (path : string)
  | HTTPError (status : Z)
  | RequestException
  | JSONDecodeError
  | ZoneInfoError (zone : string).

Inductive result (A : Type) : Type :=
  | Ok (a : A)
  | Raise (e : exn).
Arguments Ok {A} a.
Arguments Raise {A} e.

Definition rbind {A B} (r : result A) (k : A → result B) : result B :=
  match r with
  | Ok a => k a
  | Raise e => Raise e
  end.

(** [try: body except Exception: handler] on a pure computation. *)
Definition rcatch {A} (r : result A) (handler : exn → result A) : result A :=
  match r with
  | Ok a => Ok a
  | Raise e => handler e
  end.

(** ** [datetime.time] and [datetime.datetime] *)

Record time : Type := mk_time {
  hour : Z;
  minute : Z;
  second : Z;
  microsecond : Z
}.

(** [utcoffset] is [None] for a naive datetime, and the offset from UTC in
    microseconds for an aware one. *)
Record datetime : Type := mk_datetime {
  year : Z;
  month : Z;
  day : Z;
  dt_hour : Z;
  dt_minute : Z;
  dt_second : Z;
  dt_microsecond : Z;
  utcoffset : option Z
}.

(** [datetime.time()]: the time of day, without the zone. *)
Definition dt_time (d : datetime) : time :=
  mk_time (dt_hour d) (dt_minute d) (dt_second d) (dt_microsecond d).

(** The constructor [time(hour, minute)] checks its fields. *)
Definition py_time (h m : Z) : result time :=
  if negb ((0 <=? h) && (h <=? 23)) then Raise (ValueError "hour must be in 0..23")
  else if negb ((0 <=? m) && (m <=? 59)) then Raise (ValueError "minute must be in 0..59")
  else Ok (mk_time h m 0 0).

(** Two naive times compare as the tuples
    (hour, minute, second, microsecond). *)
Definition lex (c : comparison) (rest : comparison) : comparison :=
  match c with
  | Eq => rest
  | _ => c
  end.

Definition time_cmp (a b : time) : comparison :=
  lex (hour a ?= hour b)
    (lex (minute a ?= minute b)
      (lex (second a ?= second b) (microsecond a ?= microsecond b))).

Definition time_le (a b : time) : bool :=
  match time_cmp a b with Gt => false | _ => true end.

Definition time_ge (a b : time) : bool :=
  match time_cmp a b with Lt => false | _ => true end.

(** What the times of a day mean: microseconds since midnight. *)
Definition valid_time (t : time) : Prop :=
  0 <= hour t < 24 ∧ 0 <= minute t < 60 ∧ 0 <= second t < 60
  ∧ 0 <= microsecond t < 1000000.

Definition time_of_day (t : time) : Z :=
  ((hour t * 60 + minute t) * 60 + second t) * 1000000 + microsecond t.

(** ** Configuration *)

Record Config : Type := mk_Config {
  jira_base_url : string;
  jira_email : string;
  jira_api_token : string;
  jira_assignee_account_id : string;
  project_key : string;
  assignee_fallback : string;
  status_field_id : string;
  todo_transition : string;
  in_progress_transition : string;
  waiting_transition : string;
  use_confluence_kb : bool;
  confluence_base_url : string;
  confluence_space_key : string;
  openai_api_key : option string;
  openai_model : string;
  timezone : option string;
  window_start : time;
  window_end : time;
  last_run_path : string
}.

(** ** The reply window *)

Definition within_reply_window (config : Config) (now : datetime) : bool :=
  let start := window_start config in
  let end_ := window_end config in
  let current := dt_time now in
  if time_le start end_ then time_le start current && time_le current end_
  else time_ge current start || time_le current end_.

(** ** Strings

    The [str] operations the program uses, on ASCII text. *)

Definition ascii_code (c : ascii) : Z := Z.of_N (N_of_ascii c).

Definition newline : string := String (ascii_of_nat 10) EmptyString.

(** The double quote, as a string of one character. *)
Definition dquote : string := String (ascii_of_nat 34) EmptyString.

(** [hay.startswith(needle)]. *)
Fixpoint starts_with (needle hay : string) : bool :=
  match needle with
  | EmptyString => true
  | String c needle' =>
      match hay with
      | EmptyString => false
      | String d hay' => Ascii.eqb c d && starts_with needle' hay'
      end
  end.

(** [needle in hay]. *)
Fixpoint py_in (needle hay : string) : bool :=
  starts_with needle hay
  || match hay with
     | EmptyString => false
     | String _ rest => py_in needle rest
     end.

(** [s.split(sep)] for a separator of one character: the pieces between
    the occurrences of [sep], of which there is one more than
    occurrences. *)
Fixpoint split_on (sep : ascii) (s : string) : list string :=
  match s with
  | EmptyString => [EmptyString]
  | String c rest =>
      if Ascii.eqb c sep then EmptyString :: split_on sep rest
      else match split_on sep rest with
           | piece :: pieces => String c piece :: pieces
           | [] => [String c EmptyString]
           end
  end.

(** The characters [int()] skips around a numeral: tab, line feed,
    vertical tab, form feed, carriage return, space. *)
Definition is_c_space (c : ascii) : bool :=
  let n := ascii_code c in ((9 <=? n) && (n <=? 13)) || (n =? 32).

(** The characters [str.strip()] removes: those, and the four
    separators 28..31. *)
Definition is_py_space (c : ascii) : bool :=
  let n := ascii_code c in
  ((9 <=? n) && (n <=? 13)) || ((28 <=? n) && (n <=? 32)).

Fixpoint lstrip_with (sp : ascii → bool) (s : string) : string :=
  match s with
  | String c rest => if sp c then lstrip_with sp rest else s
  | EmptyString => EmptyString
  end.

Fixpoint rstrip_with (sp : ascii → bool) (s : string) : string :=
  match s with
  | EmptyString => EmptyString
  | String c rest =>
      match rstrip_with sp rest with
      | EmptyString => if sp c then EmptyString else String c EmptyString
      | kept => String c kept
      end
  end.

Definition py_strip (s : string) : string :=
  rstrip_with is_py_space (lstrip_with is_py_space s).

Definition digit_value (c : ascii) : option Z :=
  let n := ascii_code c in
  if (48 <=? n) && (n <=? 57) then Some (n - 48) else None.

(** The digits of a base-ten numeral, left to right. One underscore may
    stand between two digits, nowhere else. [prev] is the character just
    read: [None] at the start, [Some true] after a digit, [Some false]
    after an underscore. The scan stops at the end of the text. *)
Fixpoint scan_digits (s : string) (acc : Z) (prev : option bool) : option Z :=
  match s with
  | EmptyString =>
      match prev with
      | Some true => Some acc
      | _ => None
      end
  | String c rest =>
      match digit_value c with
      | Some d => scan_digits rest (10 * acc + d) (Some true)
      | None =>
          if Ascii.eqb c "_" then
            match prev with
            | Some true => scan_digits rest acc (Some false)
            | _ => None
            end
          else None
      end
  end.

(** [int(s)]: optional blanks, an optional sign, the digits, optional
    blanks. The limit some versions put on the number of digits is not
    modelled. *)
Definition py_int (s : string) : result Z :=
  let body := rstrip_with is_c_space (lstrip_with is_c_space s) in
  let bad := Raise (ValueError "invalid literal for int() with base 10") in
  match body with
  | String "-" digits =>
      match scan_digits digits 0 None with
      | Some n => Ok (- n)
      | None => bad
      end
  | String "+" digits =>
      match scan_digits digits 0 None with
      | Some n => Ok n
      | None => bad
      end
  | digits =>
      match scan_digits digits 0 None with
      | Some n => Ok n
      | None => bad
      end
  end.

(** [s.lower()]. *)
Definition lower_ascii (c : ascii) : ascii :=
  let n := ascii_code c in
  if (65 <=? n) && (n <=? 90) then ascii_of_N (Z.to_N (n + 32)) else c.

Fixpoint py_lower (s : string) : string :=
  match s with
  | EmptyString => EmptyString
  | String c rest => String (lower_ascii c) (py_lower rest)
  end.

(** [str(n)] for an int. *)
Definition str_of_Z (n : Z) : string := NilZero.string_of_int (Z.to_int n).

(** ["%0<width>d" % n] for [0 <= n]: at least [width] digits, zeros in
    front. *)
Definition pad0 (width : nat) (n : Z) : string :=
  let digits := str_of_Z n in
  String.concat EmptyString (repeat "0" (width - String.length digits)) +:+ digits.

(** ** Formatting and shifting a [datetime] *)

(** The zone suffix of [isoformat()]: nothing for a naive value, else
    [+HH:MM], with [:SS] and [.ffffff] when they are not zero. *)
Definition format_offset (off : option Z) : string :=
  match off with
  | None => EmptyString
  | Some us =>
      let sign := if us <? 0 then "-" else "+" in
      let a := Z.abs us in
      let hh := a / 3600000000 in
      let below_hour := a mod 3600000000 in
      let mm := below_hour / 60000000 in
      let below_minute := below_hour mod 60000000 in
      sign +:+ pad0 2 hh +:+ ":" +:+ pad0 2 mm
      +:+ (if below_minute =? 0 then EmptyString
           else ":" +:+ pad0 2 (below_minute / 1000000)
                +:+ (if below_minute mod 1000000 =? 0 then EmptyString
                     else "." +:+ pad0 6 (below_minute mod 1000000)))
  end.

Definition format_time (h m s us : Z) : string :=
  pad0 2 h +:+ ":" +:+ pad0 2 m +:+ ":" +:+ pad0 2 s
  +:+ (if us =? 0 then EmptyString else "." +:+ pad0 6 us).

(** [d.isoformat()]. *)
Definition isoformat (d : datetime) : string :=
  pad0 4 (year d) +:+ "-" +:+ pad0 2 (month d) +:+ "-" +:+ pad0 2 (day d) +:+ "T"
  +:+ format_time (dt_hour d) (dt_minute d) (dt_second d) (dt_microsecond d)
  +:+ format_offset (utcoffset d).

Definition is_leap (y : Z) : bool :=
  (y mod 4 =? 0) && (negb (y mod 100 =? 0) || (y mod 400 =? 0)).

Definition days_in_month (y m : Z) : Z :=
  if m =? 2 then (if is_leap y then 29 else 28)
  else if (m =? 4) || (m =? 6) || (m =? 9) || (m =? 11) then 30
  else 31.

Definition valid_datetime (d : datetime) : Prop :=
  1 <= year d <= 9999 ∧ 1 <= month d <= 12
  ∧ 1 <= day d <= days_in_month (year d) (month d)
  ∧ valid_time (dt_time d).

(** [d - timedelta(days=1)]: the same wall-clock time on the day before;
    there is no day before 0001-01-01. *)
Definition minus_one_day (d : datetime) : result datetime :=
  let at_date y m dd :=
    mk_datetime y m dd (dt_hour d) (dt_minute d) (dt_second d)
      (dt_microsecond d) (utcoffset d) in
  if 1 <? day d then Ok (at_date (year d) (month d) (day d - 1))
  else if 1 <? month d then
    Ok (at_date (year d) (month d - 1) (days_in_month (year d) (month d - 1)))
  else if 1 <? year d then Ok (at_date (year d - 1) 12 31)
  else Raise OverflowError.

(** ** JSON values *)

#[local] Set Warnings "-register-all".

Inductive json : Type :=
  | JNull
  | JBool (b : bool)
  | JInt (n : Z)
  | JFloat (f : spec_float)
  | JStr (s : string)
  | JArr (items : list json)
  | JObj (fields : list (string * json)).

(** [bool(v)]. *)
Definition truthy (v : json) : bool :=
  match v with
  | JNull => false
  | JBool b => b
  | JInt n => negb (n =? 0)
  | JFloat (S754_zero _) => false
  | JFloat _ => true
  | JStr s => negb (String.eqb s EmptyString)
  | JArr items => match items with [] => false | _ => true end
  | JObj fields => match fields with [] => false | _ => true end
  end.

Fixpoint assoc (fields : list (string * json)) (key : string) : option json :=
  match fields with
  | [] => None
  | (k, v) :: rest => if String.eqb k key then Some v else assoc rest key
  end.

(** [v.get(key, default)]: only a dict has [get]. *)
Definition py_get (v : json) (key : string) (default : json) : result json :=
  match v with
  | JObj fields =>
      Ok (match assoc fields key with Some x => x | None => default end)
  | _ => Raise AttributeError
  end.

(** [v[key]] for a string key. *)
Definition py_item (v : json) (key : string) : result json :=
  match v with
  | JObj fields =>
      match assoc fields key with
      | Some x => Ok x
      | None => Raise (KeyError key)
      end
  | _ => Raise TypeError
  end.

(** [v[0]]. *)
Definition py_first (v : json) : result json :=
  match v with
  | JArr (x :: _) => Ok x
  | JArr [] => Raise IndexError
  | JStr (String c _) => Ok (JStr (String c EmptyString))
  | JStr EmptyString => Raise IndexError
  | JObj _ => Raise (KeyError "0")
  | _ => Raise TypeError
  end.

(** [v == s] for a string [s]. *)
Definition eq_str (v : json) (s : string) : bool :=
  match v with
  | JStr t => String.eqb t s
  | _ => false
  end.

(** [iter(v)], as a [for] loop consumes it. *)
Definition py_iter (v : json) : result (list json) :=
  match v with
  | JArr items => Ok items
  | JObj fields => Ok (map (λ kv, JStr (fst kv)) fields)
  | JStr s => Ok (map (λ c, JStr (String c EmptyString)) (list_ascii_of_string s))
  | _ => Raise TypeError
  end.

(** ** Loading the configuration

    [os.getenv] reads the process environment, a finite map from names to
    values. *)

Notation "'let?' x := c 'in' k" := (rbind c (λ x, k))
  (at level 10, x name, c at level 100, k at level 200).

Definition get_env (env : gmap string string) (name : string)
    (default : option string) : result string :=
  match env !! name with
  | Some value => Ok value
  | None =>
      match default with
      | Some value => Ok value
      | None => Raise (ValueError ("Missing required environment variable: " +:+ name))
      end
  end.

(** The body of the [try] block of [parse_time_env]. *)
Definition parse_hours_minutes (raw_value : string) : result time :=
  match split_on ":" raw_value with
  | [hours; minutes] =>
      let? h := py_int hours in
      let? m := py_int minutes in
      py_time h m
  | _ => Raise (ValueError "wrong number of values to unpack")
  end.

Definition invalid_time_message (env_name raw_value : string) : string :=
  "Invalid time value for " +:+ env_name +:+ ": " +:+ raw_value.

Definition parse_time_env (env : gmap string string) (env_name default_value : string)
    : result time :=
  let raw_value := default default_value (env !! env_name) in
  rcatch (parse_hours_minutes raw_value)
    (λ _, Raise (ValueError (invalid_time_message env_name raw_value))).

Definition load_config (env : gmap string string) : result Config :=
  let timezone := env !! "TIMEZONE" in
  let? window_start := parse_time_env env "WINDOW_START" "05:30" in
  let? window_end := parse_time_env env "WINDOW_END" "17:30" in
  let? jira_base_url := get_env env "JIRA_BASE_URL" None in
  let? jira_email := get_env env "JIRA_EMAIL" None in
  let? jira_api_token := get_env env "JIRA_API_TOKEN" None in
  let? jira_assignee_account_id := get_env env "JIRA_ASSIGNEE_ACCOUNT_ID" None in
  let? project_key := get_env env "PROJECT_KEY" (Some "TS") in
  let? assignee_fallback := get_env env "ASSIGNEE_FALLBACK" (Some "currentUser()") in
  let? status_field_id := get_env env "STATUS_FIELD_ID" (Some "customfield_10353") in
  let? todo_transition := get_env env "STATUS_TRANSITION_TODO_TO_IN_PROGRESS" (Some "To-Do") in
  let? in_progress_transition := get_env env "STATUS_TRANSITION_IN_PROGRESS_TO_WAITING" (Some "Iprogress") in
  let? waiting_transition := get_env env "STATUS_TRANSITION_WAITING_TO_IN_PROGRESS" (Some "Wating for clinet") in
  let? use_confluence_kb := get_env env "USE_CONFLUENCE_KB" (Some "false") in
  let? confluence_base_url := get_env env "CONFLUENCE_BASE_URL" (Some "https://certifyos.atlassian.net/wiki") in
  let? confluence_space_key := get_env env "CONFLUENCE_SPACE_KEY" (Some "TS") in
  let? openai_model := get_env env "OPENAI_MODEL" (Some "gpt-4o-mini") in
  let? last_run_path := get_env env "LAST_RUN_PATH" (Some "last_run.json") in
  Ok (mk_Config jira_base_url jira_email jira_api_token jira_assignee_account_id
        project_key assignee_fallback status_field_id todo_transition
        in_progress_transition waiting_transition
        (String.eqb (py_lower use_confluence_kb) "true")
        confluence_base_url confluence_space_key
        (env !! "OPENAI_API_KEY") openai_model timezone
        window_start window_end last_run_path).

(** ** The outside world

    A request as [requests.get], [requests.post] and [requests.put]
    receive it; a missing keyword argument is [None] or the empty list. *)

Inductive verb : Type := GET | POST | PUT.

Record Request : Type := mk_Request {
  method : verb;
  url : string;
  headers : list (string * string);
  auth : option (string * string);
  params : list (string * string);
  body : option json;
  timeout : Z
}.

(** What comes back: a response with its status code and, when the body
    is JSON, its decoded value; or no response at all (a refused
    connection, a timeout). *)
Inductive Reply : Type :=
  | Response (status : Z) (payload : option json)
  | NoReply.

(** What [os.path.exists] and [open] find at a path: something that
    cannot be opened, or a file, given by what [json.load] makes of its
    text ([None] when the text is no JSON document). *)
Inductive fnode : Type :=
  | NoAccess
  | Contents (parsed : option json).

(** The behaviour of everything the program does not control.
    - [server history request] answers [request] after the requests of
      [history] were sent.
    - [clock n] is what the [n]-th reading of the local clock returns, and
      [zone_clock zone n] is that reading in the named zone, which raises
      when the zone is unknown.
    - [have_zoneinfo] tells whether the import of [zoneinfo] succeeded.
    - [fromisoformat] is [datetime.fromisoformat]; its grammar depends on
      the interpreter's version.
    - [repr_other] is [str()] on the JSON values that are neither a
      string, an int, a bool nor [None].
    - [writable path] tells whether [open(path, "w")] succeeds. *)
Record Host : Type := mk_Host {
  server : list Request → Request → Reply;
  clock : nat → datetime;
  zone_clock : string → nat → result datetime;
  have_zoneinfo : bool;
  fromisoformat : json → result datetime;
  repr_other : json → string;
  writable : string → bool
}.

(** The state a run reads and changes. *)
Record World : Type := mk_World {
  environ : gmap string string;
  files : gmap string fnode;
  sent : list Request;
  stdout : list string;
  ticks : nat
}.

Definition M (A : Type) : Type := World → result A * World.

Definition ret {A} (a : A) : M A := λ w, (Ok a, w).

Definition raise {A} (e : exn) : M A := λ w, (Raise e, w).

Definition bind {A B} (m : M A) (k : A → M B) : M B :=
  λ w, match m w with
       | (Ok a, w') => k a w'
       | (Raise e, w') => (Raise e, w')
       end.

Definition lift {A} (r : result A) : M A := λ w, (r, w).

(** [try: body except Exception: handler]. *)
Definition catch {A} (m : M A) (handler : exn → M A) : M A :=
  λ w, match m w with
       | (Ok a, w') => (Ok a, w')
       | (Raise e, w') => handler e w'
       end.

Notation "'let!' x := c 'in' k" := (bind c (λ x, k))
  (at level 10, x name, c at level 100, k at level 200).
Notation "c ;; k" := (bind c (λ _, k))
  (at level 100, k at level 200, right associativity).

Section Program.

Variable host : Host.

(** *** Primitive actions *)

Definition after_requests (w : World) (trace : list Request) : World :=
  mk_World (environ w) (files w) (sent w ++ trace) (stdout w) (ticks w).

Definition log_request (r : Request) (w : World) : World := after_requests w [r].

Definition with_file (path : string) (node : fnode) (w : World) : World :=
  mk_World (environ w) (<[path := node]> (files w)) (sent w) (stdout w) (ticks w).

Definition tick (w : World) : World :=
  mk_World (environ w) (files w) (sent w) (stdout w) (S (ticks w)).

(** One call of [requests.get], [requests.post] or [requests.put]. *)
Definition send (r : Request) : M (Z * option json) :=
  λ w, match server host (sent w) r with
       | Response status payload => (Ok (status, payload), log_request r w)
       | NoReply => (Raise RequestException, log_request r w)
       end.

(** [response.raise_for_status()]. *)
Definition raise_for_status (response : Z * option json) : M unit :=
  let status := fst response in
  if (400 <=? status) && (status <? 600) then raise (HTTPError status) else ret tt.

(** [response.json()]. *)
Definition response_json (response : Z * option json) : M json :=
  match snd response with
  | Some data => ret data
  | None => raise JSONDecodeError
  end.

(** [datetime.now()] and [datetime.now(ZoneInfo(zone))]. *)
Definition datetime_now : M datetime :=
  λ w, (Ok (clock host (ticks w)), tick w).

Definition datetime_now_in (zone : string) : M datetime :=
  λ w, (zone_clock host zone (ticks w), tick w).

Definition after_print (w : World) (line : string) : World :=
  mk_World (environ w) (files w) (sent w) (stdout w ++ [line]) (ticks w).

Definition print (line : string) : M unit := λ w, (Ok tt, after_print w line).

(** [str(v)], as an f-string inserts a value. *)
Definition py_str (v : json) : string :=
  match v with
  | JStr s => s
  | JNull => "None"
  | JBool true => "True"
  | JBool false => "False"
  | JInt n => str_of_Z n
  | other => repr_other host other
  end.

(** *** Time and watermark *)

Definition now_local (config : Config) : M datetime :=
  match timezone config with
  | Some zone =>
      if negb (String.eqb zone EmptyString) && have_zoneinfo host then datetime_now_in zone
      else datetime_now
  | None => datetime_now
  end.

Definition a_day_ago : M datetime :=
  let! now := datetime_now in
  lift (minus_one_day now).

(** The body of the [try] block of [load_last_run], on what is found at
    the path. *)
Definition read_last_run (path : string) (node : fnode) : result datetime :=
  match node with
  | NoAccess => Raise (OSError path)
  | Contents None => Raise JSONDecodeError
  | Contents (Some payload) =>
      let? stamp := py_item payload "last_run" in
      fromisoformat host stamp
  end.

Definition load_last_run (path : string) : M datetime :=
  λ w, match files w !! path with
       | None => a_day_ago w
       | Some node => catch (lift (read_last_run path node)) (λ _, a_day_ago) w
       end.

Definition watermark (timestamp : datetime) : json :=
  JObj [("last_run", JStr (isoformat timestamp))].

Definition save_last_run (path : string) (timestamp : datetime) : M unit :=
  λ w, if writable host path
       then (Ok tt, with_file path (Contents (Some (watermark timestamp))) w)
       else (Raise (OSError path), w).

(** *** The ticketing client *)

Definition jira_headers : list (string * string) :=
  [("Accept", "application/json"); ("Content-Type", "application/json")].

Definition jira_auth (config : Config) : string * string :=
  (jira_email config, jira_api_token config).

Definition search_jql (config : Config) (last_run : datetime) : string :=
  "project = " +:+ dquote +:+ project_key config +:+ dquote +:+ " "
  +:+ "AND assignee is EMPTY "
  +:+ "AND status = " +:+ dquote +:+ "To-Do" +:+ dquote +:+ " "
  +:+ "AND statusCategory != Done "
  +:+ "AND updated >= " +:+ dquote +:+ isoformat last_run +:+ dquote +:+ " "
  +:+ "ORDER BY created ASC".

Definition search_request (config : Config) (last_run : datetime) : Request :=
  mk_Request GET (jira_base_url config +:+ "/rest/api/3/search/jql")
    jira_headers (Some (jira_auth config))
    [("jql", search_jql config last_run)] None 30.

Definition jira_search_issues (config : Config) (last_run : datetime) : M json :=
  let! response := send (search_request config last_run) in
  raise_for_status response ;;
  let! data := response_json response in
  lift (py_get data "issues" (JArr [])).

Definition issue_url (config : Config) (issue_key : json) (leaf : string) : string :=
  jira_base_url config +:+ "/rest/api/3/issue/" +:+ py_str issue_key +:+ "/" +:+ leaf.

Definition comment_request (config : Config) (issue_key : json) (text : string) : Request :=
  mk_Request POST (issue_url config issue_key "comment")
    jira_headers (Some (jira_auth config)) []
    (Some (JObj [("body", JStr text)])) 30.

Definition jira_add_comment (config : Config) (issue_key : json) (text : string) : M unit :=
  let! response := send (comment_request config issue_key text) in
  raise_for_status response.

Definition assign_request (config : Config) (issue_key : json)
    (assignee_account_id : string) : Request :=
  mk_Request PUT (issue_url config issue_key "assignee")
    jira_headers (Some (jira_auth config)) []
    (Some (JObj [("accountId", JStr assignee_account_id)])) 30.

Definition jira_assign_issue (config : Config) (issue_key : json)
    (assignee_account_id : string) : M unit :=
  let! response := send (assign_request config issue_key assignee_account_id) in
  raise_for_status response.

Definition list_transitions_request (config : Config) (issue_key : json) : Request :=
  mk_Request GET (issue_url config issue_key "transitions")
    jira_headers (Some (jira_auth config)) [] None 30.

Definition jira_list_transitions (config : Config) (issue_key : json) : M json :=
  let! response := send (list_transitions_request config issue_key) in
  raise_for_status response ;;
  let! data := response_json response in
  lift (py_get data "transitions" (JArr [])).

(** [next((item for item in transitions if item.get("name") == name), None)]:
    the first item of that name; an item before it that has no [get]
    raises. *)
Fixpoint first_named (items : list json) (transition_name : string)
    : result (option json) :=
  match items with
  | [] => Ok None
  | item :: rest =>
      let? name := py_get item "name" JNull in
      if eq_str name transition_name then Ok (Some item)
      else first_named rest transition_name
  end.

Definition transition_request (config : Config) (issue_key : json) (id : json) : Request :=
  mk_Request POST (issue_url config issue_key "transitions")
    jira_headers (Some (jira_auth config)) []
    (Some (JObj [("transition", JObj [("id", id)])])) 30.

Definition transition_not_found (transition_name : string) (issue_key : json) : exn :=
  ValueError ("Transition '" +:+ transition_name +:+ "' not found for " +:+ py_str issue_key).

Definition jira_transition_issue (config : Config) (issue_key : json)
    (transition_name : string) : M unit :=
  let! transitions := jira_list_transitions config issue_key in
  let! items := lift (py_iter transitions) in
  let! transition := lift (first_named items transition_name) in
  match transition with
  | Some item =>
      if truthy item then
        let! id := lift (py_item item "id") in
        let! response := send (transition_request config issue_key id) in
        raise_for_status response
      else raise (transition_not_found transition_name issue_key)
  | None => raise (transition_not_found transition_name issue_key)
  end.

(** *** The reply generator *)

Definition default_reply_text (summary : string) : string :=
  "Thanks for reaching out! We received **" +:+ summary +:+ "**. "
  +:+ "Our team will review this shortly and respond with next steps.".

Definition build_default_reply (issue : json) : result string :=
  let? fields := py_get issue "fields" (JObj []) in
  let? summary := py_get fields "summary" (JStr "your ticket") in
  Ok (default_reply_text (py_str summary)).

Definition prompt_text (summary description : json) : string :=
  "You are an assistant for support tickets. Draft a concise, friendly "
  +:+ "auto-reply acknowledging the ticket and asking for any missing info. "
  +:+ "Keep it under 80 words." +:+ newline +:+ newline
  +:+ "Summary: " +:+ py_str summary +:+ newline
  +:+ "Description: " +:+ py_str description.

(** The double nearest to 0.3. *)
Definition temperature : spec_float := S754_finite false 5404319552844595 (-54).

Definition completion_request (config : Config) (api_key : string) (prompt : string)
    : Request :=
  mk_Request POST "https://api.openai.com/v1/chat/completions"
    [("Authorization", "Bearer " +:+ api_key); ("Content-Type", "application/json")]
    None []
    (Some (JObj [("model", JStr (openai_model config));
                 ("messages", JArr [JObj [("role", JStr "user");
                                          ("content", JStr prompt)]]);
                 ("temperature", JFloat temperature)]))
    30.

(** [v.strip()]: only a string has [strip]. *)
Definition strip_content (v : json) : result string :=
  match v with
  | JStr s => Ok (py_strip s)
  | _ => Raise AttributeError
  end.

Definition generate_ai_reply (config : Config) (issue : json) : M string :=
  match openai_api_key config with
  | None => lift (build_default_reply issue)
  | Some api_key =>
      if String.eqb api_key EmptyString then lift (build_default_reply issue)
      else
        let! fields := lift (py_get issue "fields" (JObj [])) in
        let! summary := lift (py_get fields "summary" (JStr EmptyString)) in
        let! fields' := lift (py_get issue "fields" (JObj [])) in
        let! description := lift (py_get fields' "description" (JStr EmptyString)) in
        let! response :=
          send (completion_request config api_key (prompt_text summary description)) in
        raise_for_status response ;;
        let! data := response_json response in
        let! choices := lift (py_item data "choices") in
        let! choice := lift (py_first choices) in
        let! message := lift (py_item choice "message") in
        let! content := lift (py_item message "content") in
        lift (strip_content content)
  end.

(** *** The orchestrator *)

(** The loop of [process_issues], with the count so far. *)
Fixpoint process_from (config : Config) (issues : list json)
    (assignee_account_id : string) (count : Z) : M Z :=
  match issues with
  | [] => ret count
  | issue :: rest =>
      let! issue_key := lift (py_get issue "key" JNull) in
      if negb (truthy issue_key) then
        process_from config rest assignee_account_id count
      else
        let! reply := generate_ai_reply config issue in
        jira_add_comment config issue_key reply ;;
        jira_assign_issue config issue_key assignee_account_id ;;
        jira_transition_issue config issue_key (todo_transition config) ;;
        jira_transition_issue config issue_key (in_progress_transition config) ;;
        jira_transition_issue config issue_key (waiting_transition config) ;;
        process_from config rest assignee_account_id (count + 1)
  end.

Definition process_issues (config : Config) (issues : list json)
    (assignee_account_id : string) : M Z :=
  process_from config issues assignee_account_id 0.

(** What [main] does once the configuration is loaded. The search
    result is whatever the server put under "issues"; the loop of
    [process_issues] iterates over it. *)
Definition run (config : Config) : M Z :=
  let! now := now_local config in
  if negb (within_reply_window config now) then
    print "Outside reply window. Exiting." ;;
    ret 0
  else
    let! last_run := load_last_run (last_run_path config) in
    let! issues := jira_search_issues config last_run in
    if negb (truthy issues) then
      print "No matching issues found." ;;
      save_last_run (last_run_path config) now ;;
      ret 0
    else
      let! candidates := lift (py_iter issues) in
      let! processed :=
        process_issues config candidates (jira_assignee_account_id config) in
      save_last_run (last_run_path config) now ;;
      print ("Processed " +:+ str_of_Z processed +:+ " issues.") ;;
      ret 0.

(** [main]: its value is the exit status. [load_config] raises nothing
    but [ValueError] (lemma [load_config_raises]). *)
Definition main : M Z :=
  λ w, match load_config (environ w) with
       | Raise (ValueError message) => (print message ;; ret 1) w
       | Raise e => (Raise e, w)
       | Ok config => run config w
       end.

End Program.

(** ** Auxiliary notions used in the statements *)

(** [c in s] for one character. *)
Fixpoint has_char (c : ascii) (s : string) : bool :=
  match s with
  | EmptyString => false
  | String d rest => Ascii.eqb d c || has_char c rest
  end.


(** [s.endswith(suffix)]. *)
Definition ends_with (suffix s : string) : bool :=
  starts_with (String.rev suffix) (String.rev s).

(** The variables that have no default. *)
Definition required_variables : list string :=
  ["JIRA_BASE_URL"; "JIRA_EMAIL"; "JIRA_API_TOKEN"; "JIRA_ASSIGNEE_ACCOUNT_ID"].

(** An item of a transitions listing that is a dict under another name
    than [transition_name]. *)
Definition other_name (transition_name : string) (item : json) : Prop :=
  ∃ n, py_get item "name" JNull = Ok n ∧ n ≠ JStr transition_name.


(** The ticket has a summary, the text [summary]. *)
Definition has_summary (issue : json) (summary : string) : Prop :=
  ∃ entries fields,
    issue = JObj entries
    ∧ assoc entries "fields" = Some (JObj fields)
    ∧ assoc fields "summary" = Some (JStr summary).

(** The ticket is a dict with no key, or whose key is [None] or the
    empty string. *)
Definition keyless (issue : json) : Prop :=
  ∃ entries,
    issue = JObj entries
    ∧ (assoc entries "key" = None
       ∨ assoc entries "key" = Some JNull
       ∨ assoc entries "key" = Some (JStr EmptyString)).

(** The test of the loop of [process_issues]: the ticket has a key that
    counts as true. *)
Definition has_key (issue : json) : bool :=
  match py_get issue "key" JNull with
  | Ok key => truthy key
  | Raise _ => false
  end.

(** An action that does nothing to the world but send requests. *)
Definition only_requests {A} (m : M A) : Prop :=
  ∀ w r w', m w = (r, w') → ∃ trace, w' = after_requests w trace.

(** What makes the [try] block of [load_last_run] fail: the path cannot
    be opened, the text is no JSON, the document has no timestamp under
    "last_run", or the timestamp is not in ISO format. *)
Inductive damaged (host : Host) : fnode → Prop :=
  | damaged_no_access : damaged host NoAccess
  | damaged_no_json : damaged host (Contents None)
  | damaged_no_stamp payload e :
      py_item payload "last_run" = Raise e →
      damaged host (Contents (Some payload))
  | damaged_bad_stamp payload stamp e :
      py_item payload "last_run" = Ok stamp →
      fromisoformat host stamp = Raise e →
      damaged host (Contents (Some payload)).

(** The days of the months before month [m] in year [y], and the number
    of the day in the proleptic Gregorian calendar (day 1 is 0001-01-01),
    as [date.toordinal] counts. *)
Definition days_before_month (y m : Z) : Z :=
  let leap := if is_leap y then 1 else 0 in
  if m <=? 1 then 0
  else if m =? 2 then 31
  else if m =? 3 then 59 + leap
  else if m =? 4 then 90 + leap
  else if m =? 5 then 120 + leap
  else if m =? 6 then 151 + leap
  else if m =? 7 then 181 + leap
  else if m =? 8 then 212 + leap
  else if m =? 9 then 243 + leap
  else if m =? 10 then 273 + leap
  else if m =? 11 then 304 + leap
  else 334 + leap.

Definition days_before_year (y : Z) : Z :=
  (y - 1) * 365 + (y - 1) / 4 - (y - 1) / 100 + (y - 1) / 400.

Definition ordinal (d : datetime) : Z :=
  days_before_year (year d) + days_before_month (year d) (month d) + day d.

(** Microseconds since the midnight that starts 0001-01-01, on the
    wall clock. *)
Definition wall_clock (d : datetime) : Z :=
  (ordinal d - 1) * 86400000000 + time_of_day (dt_time d).

(** The configuration the documentation promises for an environment:
    each optional variable, when unset, has its default; the window is
    what its two variables parse to. *)
Definition env_or (env : gmap string string) (name fallback : string) : string :=
  default fallback (env !! name).

Definition configured (env : gmap string string) (start end_ : time) : Config :=
  {| jira_base_url := env_or env "JIRA_BASE_URL" EmptyString;
     jira_email := env_or env "JIRA_EMAIL" EmptyString;
     jira_api_token := env_or env "JIRA_API_TOKEN" EmptyString;
     jira_assignee_account_id := env_or env "JIRA_ASSIGNEE_ACCOUNT_ID" EmptyString;
     project_key := env_or env "PROJECT_KEY" "TS";
     assignee_fallback := env_or env "ASSIGNEE_FALLBACK" "currentUser()";
     status_field_id := env_or env "STATUS_FIELD_ID" "customfield_10353";
     todo_transition := env_or env "STATUS_TRANSITION_TODO_TO_IN_PROGRESS" "To-Do";
     in_progress_transition :=
       env_or env "STATUS_TRANSITION_IN_PROGRESS_TO_WAITING" "Iprogress";
     waiting_transition :=
       env_or env "STATUS_TRANSITION_WAITING_TO_IN_PROGRESS" "Wating for clinet";
     use_confluence_kb :=
       String.eqb (py_lower (env_or env "USE_CONFLUENCE_KB" "false")) "true";
     confluence_base_url :=
       env_or env "CONFLUENCE_BASE_URL" "https://certifyos.atlassian.net/wiki";
     confluence_space_key := env_or env "CONFLUENCE_SPACE_KEY" "TS";
     openai_api_key := env !! "OPENAI_API_KEY";
     openai_model := env_or env "OPENAI_MODEL" "gpt-4o-mini";
     timezone := env !! "TIMEZONE";
     window_start := start;
     window_end := end_;
     last_run_path := env_or env "LAST_RUN_PATH" "last_run.json" |}.

(** Every text of a configuration. *)
Definition config_values (config : Config) : list string :=
  [jira_base_url config; jira_email config; jira_api_token config;
   jira_assignee_account_id config; project_key config; assignee_fallback config;
   status_field_id config; todo_transition config; in_progress_transition config;
   waiting_transition config; confluence_base_url config;
   confluence_space_key config; default EmptyString (openai_api_key config);
   openai_model config; default EmptyString (timezone config);
   last_run_path config].

(** The number of occurrences of a character. *)
Fixpoint count_char (c : ascii) (s : string) : nat :=
  match s with
  | EmptyString => 0%nat
  | String d rest => ((if Ascii.eqb d c then 1 else 0) + count_char c rest)%nat
  end.

(** [int()] reads the plain numeral of [n] back as [n], and the numeral
    holds no colon. *)
Definition reads_plain (n : Z) : bool :=
  match py_int (str_of_Z n) with
  | Ok k => (k =? n) && negb (has_char ":" (str_of_Z n))
  | Raise _ => false
  end.

(** The configuration with the two bounds of the window exchanged. *)
Definition swap_window (config : Config) : Config :=
  mk_Config (jira_base_url config) (jira_email config) (jira_api_token config)
    (jira_assignee_account_id config) (project_key config) (assignee_fallback config)
    (status_field_id config) (todo_transition config) (in_progress_transition config)
    (waiting_transition config) (use_confluence_kb config) (confluence_base_url config)
    (confluence_space_key config) (openai_api_key config) (openai_model config)
    (timezone config) (window_end config) (window_start config) (last_run_path config).

(** [url_ends_with] of the repository's tests:
    [url.rstrip("/").endswith(suffix)]. *)
Definition url_ends_with (url suffix : string) : bool :=
  ends_with suffix (rstrip_with (Ascii.eqb "/") url).

(** Every request of a trace satisfies [P], and nothing else of the
    world changes. *)
Definition sends_only {A} (P : Request → Prop) (m : M A) : Prop :=
  ∀ w r w', m w = (r, w') → ∃ trace, w' = after_requests w trace ∧ Forall P trace.

(** A request to the ticketing system: under the configured base URL,
    with the configured credentials as basic authentication, the JSON
    headers and a timeout of 30 seconds. *)
Definition ticketing_request (config : Config) (r : Request) : Prop :=
  starts_with (jira_base_url config) (url r) = true
  ∧ auth r = Some (jira_email config, jira_api_token config)
  ∧ headers r = [("Accept", "application/json"); ("Content-Type", "application/json")]
  ∧ timeout r = 30.

(** A request to the text generation service: a POST to its endpoint
    with the generation key as bearer token, no basic authentication and
    a timeout of 30 seconds. *)
Definition generation_request (config : Config) (r : Request) : Prop :=
  method r = POST
  ∧ url r = "https://api.openai.com/v1/chat/completions"
  ∧ auth r = None
  ∧ (∃ api_key, openai_api_key config = Some api_key
                ∧ headers r = [("Authorization", "Bearer " +:+ api_key);
                               ("Content-Type", "application/json")])
  ∧ timeout r = 30.

(** What a request of the program is. *)
Definition carried (config : Config) (r : Request) : Prop :=
  ticketing_request config r ∨ generation_request config r.

(** ** A test bench

    The environment of the repository's tests, reduced to the required
    variables, and a ticketing server with one open ticket. *)

Definition bench_env : gmap string string :=
  list_to_map
    [("JIRA_BASE_URL", "https://example.atlassian.net");
     ("JIRA_EMAIL", "anurag.rai@certifyos.com");
     ("JIRA_API_TOKEN", "token");
     ("JIRA_ASSIGNEE_ACCOUNT_ID", "712020:abc")].

Definition bench_config : Config :=
  mk_Config "https://example.atlassian.net" "anurag.rai@certifyos.com" "token"
    "712020:abc" "TS" "currentUser()" "customfield_10353"
    "To-Do" "Iprogress" "Wating for clinet" false
    "https://certifyos.atlassian.net/wiki" "TS" None "gpt-4o-mini" None
    (mk_time 5 30 0 0) (mk_time 17 30 0 0) "last_run.json".

Definition bench_issue : json :=
  JObj [("key", JStr "TS-1"); ("fields", JObj [("summary", JStr "Test ticket")])].

Definition bench_transitions : json :=
  JObj [("transitions",
         JArr [JObj [("id", JStr "11"); ("name", JStr "To-Do")];
               JObj [("id", JStr "55"); ("name", JStr "Iprogress")];
               JObj [("id", JStr "71"); ("name", JStr "Wating for clinet")]])].

(** The server answers a posted comment with [comment_status], and
    everything else with success. *)
Definition bench_server (comment_status : Z) (history : list Request) (r : Request)
    : Reply :=
  match method r with
  | GET =>
      if ends_with "/search/jql" (url r)
      then Response 200 (Some (JObj [("issues", JArr [bench_issue])]))
      else Response 200 (Some bench_transitions)
  | POST =>
      if ends_with "/comment" (url r) then Response comment_status (Some (JObj []))
      else Response 204 None
  | PUT => Response 204 None
  end.

Definition bench_now : datetime := mk_datetime 2024 1 2 10 0 0 0 None.

Definition bench_host (comment_status : Z) : Host :=
  mk_Host (bench_server comment_status) (λ _, bench_now)
    (λ zone _, Raise (ZoneInfoError zone)) true
    (λ _, Raise (ValueError "Invalid isoformat string"))
    (λ _, "?") (λ _, true).

Definition bench_world : World := mk_World bench_env ∅ [] [] 0.

(** An environment with every required variable and a window bound that
    is no time. *)
Definition bad_window_env : gmap string string :=
  <["WINDOW_START" := "not-a-time"]> bench_env.

(** A configuration whose transition names have nothing in common with
    the status label of the search. *)
Definition renamed_config : Config :=
  mk_Config "https://example.atlassian.net" "anurag.rai@certifyos.com" "token"
    "712020:abc" "TS" "currentUser()" "customfield_10353"
    "Open" "Start" "Ask" false
    "https://certifyos.atlassian.net/wiki" "TS" None "gpt-4o-mini" None
    (mk_time 5 30 0 0) (mk_time 17 30 0 0) "last_run.json".

(** A window over midnight, as in the repository's tests, and two times
    of day. *)
Definition overnight_config : Config :=
  mk_Config "https://example.atlassian.net" "anurag.rai@certifyos.com" "token"
    "712020:abc" "TS" "currentUser()" "customfield_10353"
    "To-Do" "Iprogress" "Wating for clinet" false
    "https://certifyos.atlassian.net/wiki" "TS" None "gpt-4o-mini" None
    (mk_time 22 0 0 0) (mk_time 6 0 0 0) "last_run.json".

Definition late_evening : datetime := mk_datetime 2024 1 1 23 0 0 0 None.

(** An environment without [JIRA_EMAIL]. *)
Definition no_email_env : gmap string string := delete "JIRA_EMAIL" bench_env.

(** A ticket without a key. *)
Definition anonymous_issue : json :=
  JObj [("fields", JObj [("summary", JStr "No key")])].

(** A world whose watermark file cannot be opened. *)
Definition locked_world : World :=
  mk_World bench_env {["last_run.json" := NoAccess]} [] [] 0.

(** A server that gives the same answer to every request. *)
Definition constant_server (reply : Reply) : list Request → Request → Reply :=
  λ _ _, reply.

(** A host given by its server, the reading of its clock and whether
    files can be written; its [fromisoformat] reads the timestamp of
    [bench_now] and nothing else. *)
Definition lab_host (server : list Request → Request → Reply) (now : datetime)
    (can_write : bool) : Host :=
  mk_Host server (λ _, now) (λ zone _, Raise (ZoneInfoError zone)) true
    (λ stamp, if eq_str stamp "2024-01-02T10:00:00" then Ok bench_now
              else Raise (ValueError "Invalid isoformat string"))
    (λ _, "?") (λ _, can_write).

(** The bench with a generation key, and with a time zone. *)
Definition keyed_config : Config :=
  mk_Config "https://example.atlassian.net" "anurag.rai@certifyos.com" "token"
    "712020:abc" "TS" "currentUser()" "customfield_10353"
    "To-Do" "Iprogress" "Wating for clinet" false
    "https://certifyos.atlassian.net/wiki" "TS" (Some "key") "gpt-4o-mini" None
    (mk_time 5 30 0 0) (mk_time 17 30 0 0) "last_run.json".



(** A world whose watermark file holds the timestamp of [bench_now]. *)
Definition stamped_world : World :=
  mk_World bench_env {["last_run.json" := Contents (Some (watermark bench_now))]} [] [] 0.


Definition listing_without_id : json :=
  JObj [("transitions", JArr [JObj [("name", JStr "Iprogress")]])].

(** * Properties *)

#[local] Arguments String.append !s1 s2 / : simpl nomatch.

(** ** The order of the times of a day *)

Lemma time_cmp_time_of_day (a b : time) :
  valid_time a → valid_time b →
  time_cmp a b = (time_of_day a ?= time_of_day b).
Proof.
  intros (Ha1 & Ha2 & Ha3 & Ha4) (Hb1 & Hb2 & Hb3 & Hb4).
  unfold time_cmp, time_of_day, lex.
  destruct (Z.compare_spec (hour a) (hour b));
    [destruct (Z.compare_spec (minute a) (minute b));
      [destruct (Z.compare_spec (second a) (second b));
        [destruct (Z.compare_spec (microsecond a) (microsecond b))|..]|..]|..];
    symmetry;
    first [apply Z.compare_eq_iff | apply Z.compare_lt_iff | apply Z.compare_gt_iff];
    nia.
Qed.

Lemma time_le_time_of_day (a b : time) :
  valid_time a → valid_time b →
  time_le a b = true ↔ time_of_day a <= time_of_day b.
Proof.
  intros Ha Hb. unfold time_le. rewrite (time_cmp_time_of_day a b Ha Hb).
  destruct (Z.compare_spec (time_of_day a) (time_of_day b)); split; intros; try lia; try done.
Qed.

Lemma time_ge_time_of_day (a b : time) :
  valid_time a → valid_time b →
  time_ge a b = true ↔ time_of_day a >= time_of_day b.
Proof.
  intros Ha Hb. unfold time_ge. rewrite (time_cmp_time_of_day a b Ha Hb).
  destruct (Z.compare_spec (time_of_day a) (time_of_day b)); split; intros; try lia; try done.
Qed.

(** C2. For valid window bounds and a valid time of day, with [s], [e]
    and [t] the start, the end and the current time in microseconds since
    midnight: when [s <= e] the check answers true exactly when
    [s <= t <= e], and when [s > e] (a window over midnight) exactly when
    [t >= s] or [t <= e]. *)
Theorem within_reply_window_spec (config : Config) (now : datetime) :
  valid_time (window_start config) →
  valid_time (window_end config) →
  valid_time (dt_time now) →
  let s := time_of_day (window_start config) in
  let e := time_of_day (window_end config) in
  let t := time_of_day (dt_time now) in
  (s <= e → (within_reply_window config now = true ↔ s <= t <= e))
  ∧ (s > e → (within_reply_window config now = true ↔ t >= s ∨ t <= e)).
Proof.
  intros Hs He Ht s e t. unfold within_reply_window.
  pose proof (time_le_time_of_day _ _ Hs He) as Hse.
  pose proof (time_le_time_of_day _ _ Hs Ht) as Hst.
  pose proof (time_le_time_of_day _ _ Ht He) as Hte.
  pose proof (time_ge_time_of_day _ _ Ht Hs) as Hts.
  fold s e t in Hse, Hst, Hte, Hts.
  split; intros Hord.
  - destruct (time_le (window_start config) (window_end config)) eqn:E.
    + rewrite andb_true_iff, Hst, Hte. tauto.
    + apply Hse in Hord. congruence.
  - destruct (time_le (window_start config) (window_end config)) eqn:E.
    + assert (s <= e) by (apply Hse; reflexivity). lia.
    + rewrite orb_true_iff, Hts, Hte. tauto.
Qed.

(** ** Substrings *)

Lemma starts_with_app (s rest : string) : starts_with s (s +:+ rest) = true.
Proof.
  induction s as [|c s IH]; simpl; [done|].
  by rewrite Ascii.eqb_refl, IH.
Qed.

Lemma py_in_here (s rest : string) : py_in s (s +:+ rest) = true.
Proof.
  destruct (s +:+ rest) eqn:E; simpl; rewrite <- E, starts_with_app; done.
Qed.

Lemma py_in_skip (s before hay : string) :
  py_in s hay = true → py_in s (before +:+ hay) = true.
Proof.
  intros H. induction before as [|c before IH]; simpl; [exact H|].
  rewrite IH. apply orb_true_r.
Qed.

Lemma py_in_middle (s before after : string) :
  py_in s (before +:+ s +:+ after) = true.
Proof. apply py_in_skip, py_in_here. Qed.

Lemma append_assoc (a b c : string) : (a +:+ b) +:+ c = a +:+ b +:+ c.
Proof. induction a as [|x a IH]; simpl; [done | by rewrite IH]. Qed.

Lemma py_in_at (s before after hay : string) :
  hay = before +:+ s +:+ after → py_in s hay = true.
Proof. intros ->. apply py_in_middle. Qed.

(** ** Splitting at a character *)


Lemma split_on_absent (sep : ascii) (s : string) :
  has_char sep s = false → split_on sep s = [s].
Proof.
  induction s as [|d s IH]; simpl; [done|].
  intros [Hd Hs]%orb_false_iff. by rewrite Hd, (IH Hs).
Qed.

Lemma split_on_first (sep : ascii) (a b : string) :
  has_char sep a = false →
  split_on sep (a +:+ String sep b) = a :: split_on sep b.
Proof.
  induction a as [|d a IH]; simpl.
  - intros _. by rewrite Ascii.eqb_refl.
  - intros [Hd Ha]%orb_false_iff. by rewrite Hd, (IH Ha).
Qed.

(** ** Two-digit numerals *)

Lemma forallb_below (P : Z → bool) (k : nat) :
  forallb P (map Z.of_nat (seq 0 k)) = true →
  ∀ n, 0 <= n < Z.of_nat k → P n = true.
Proof.
  intros H n Hn. rewrite forallb_forall in H. apply H.
  apply in_map_iff. exists (Z.to_nat n). split; [lia|].
  apply in_seq. lia.
Qed.






Lemma eq_str_true (v : json) (s : string) : eq_str v s = true ↔ v = JStr s.
Proof.
  destruct v; simpl; try (split; [done | by intros [=]]).
  rewrite String.eqb_eq. split; [by intros -> | by intros [=]].
Qed.

Lemma eq_str_false (v : json) (s : string) : eq_str v s = false ↔ v ≠ JStr s.
Proof.
  rewrite <- eq_str_true. destruct (eq_str v s); split; done.
Qed.


Lemma first_named_found (before after : list json) (item : json) (transition_name : string) :
  Forall (other_name transition_name) before →
  py_get item "name" JNull = Ok (JStr transition_name) →
  first_named (before ++ item :: after) transition_name = Ok (Some item).
Proof.
  intros Hb Hitem.
  induction Hb as [|x before (n & Hn & Hne) _ IH]; simpl.
  - rewrite Hitem. simpl. by rewrite String.eqb_refl.
  - rewrite Hn. simpl. apply eq_str_false in Hne. by rewrite Hne.
Qed.


(** ** The day before *)

Lemma days_before_next_year (y : Z) :
  days_before_year (y + 1) = days_before_year y + 365 + (if is_leap y then 1 else 0).
Proof.
  unfold days_before_year, is_leap.
  replace (y + 1 - 1) with y by lia.
  destruct (y mod 4 =? 0) eqn:E4; destruct (y mod 100 =? 0) eqn:E100;
    destruct (y mod 400 =? 0) eqn:E400; simpl;
    rewrite ?Z.eqb_eq, ?Z.eqb_neq in *;
    Z.div_mod_to_equations; lia.
Qed.

Lemma days_before_next_month (y m : Z) :
  1 <= m < 12 →
  days_before_month y (m + 1) = days_before_month y m + days_in_month y m.
Proof.
  intros Hm.
  assert (m = 1 ∨ m = 2 ∨ m = 3 ∨ m = 4 ∨ m = 5 ∨ m = 6 ∨ m = 7 ∨ m = 8
          ∨ m = 9 ∨ m = 10 ∨ m = 11) as Hcases by lia.
  unfold days_before_month, days_in_month.
  destruct (is_leap y);
    repeat (destruct Hcases as [->|Hcases]; [reflexivity|]); subst m; reflexivity.
Qed.

Lemma minus_one_day_wall_clock (d y : datetime) :
  valid_datetime d →
  minus_one_day d = Ok y →
  wall_clock y = wall_clock d - 86400000000 ∧ valid_datetime y.
Proof.
  intros (Hy & Hm & Hd & Ht). unfold minus_one_day.
  destruct (1 <? day d) eqn:E1; [|destruct (1 <? month d) eqn:E2;
    [|destruct (1 <? year d) eqn:E3; [|done]]];
    intros [= <-]; unfold wall_clock, ordinal, valid_datetime;
    unfold valid_time, time_of_day, dt_time in *; simpl in *;
    rewrite ?Z.ltb_lt, ?Z.ltb_ge in *.
  - repeat split; try done; try lia.
  - pose proof (days_before_next_month (year d) (month d - 1)) as H.
    replace (month d - 1 + 1) with (month d) in H by lia.
    assert (28 <= days_in_month (year d) (month d - 1)).
    { unfold days_in_month. repeat destruct (_ =? _); simpl; try lia; destruct (is_leap _); lia. }
    repeat split; try done; try lia.
  - pose proof (days_before_next_year (year d - 1)) as H.
    replace (year d - 1 + 1) with (year d) in H by lia.
    assert (month d = 1) as Hm1 by lia. assert (day d = 1) as Hd1 by lia.
    rewrite Hm1, Hd1.
    unfold days_before_month at 1 2. simpl.
    repeat split; try done; try lia.
Qed.

Section Traces.

Variable host : Host.
Variable config : Config.

Lemma after_requests_nil (w : World) : after_requests w [] = w.
Proof. destruct w. unfold after_requests. simpl. by rewrite app_nil_r. Qed.

Lemma after_requests_app (w : World) (t1 t2 : list Request) :
  after_requests (after_requests w t1) t2 = after_requests w (t1 ++ t2).
Proof. unfold after_requests. simpl. by rewrite app_assoc. Qed.

Lemma send_trace (r : Request) (w : World) :
  ∃ res, send host r w = (res, after_requests w [r]).
Proof. unfold send, log_request. destruct (server host (sent w) r); eauto. Qed.

Lemma raise_for_status_world (response : Z * option json) (w : World) :
  ∃ res, raise_for_status response w = (res, w).
Proof. unfold raise_for_status. destruct (_ && _); unfold raise, ret; eauto. Qed.

Lemma add_comment_trace (key : json) (text : string) (w : World) :
  ∃ res, jira_add_comment host config key text w
         = (res, after_requests w [comment_request host config key text]).
Proof.
  unfold jira_add_comment, bind.
  destruct (send_trace (comment_request host config key text) w) as [[resp|e] ->]; [|eauto].
  apply raise_for_status_world.
Qed.

Lemma assign_trace (key : json) (account : string) (w : World) :
  ∃ res, jira_assign_issue host config key account w
         = (res, after_requests w [assign_request host config key account]).
Proof.
  unfold jira_assign_issue, bind.
  destruct (send_trace (assign_request host config key account) w) as [[resp|e] ->]; [|eauto].
  apply raise_for_status_world.
Qed.

Lemma list_transitions_trace (key : json) (w : World) :
  ∃ res, jira_list_transitions host config key w
         = (res, after_requests w [list_transitions_request host config key]).
Proof.
  unfold jira_list_transitions, bind.
  destruct (send_trace (list_transitions_request host config key) w) as [[resp|e] ->]; [|eauto].
  destruct (raise_for_status_world resp (after_requests w [list_transitions_request host config key]))
    as [[[]|e] ->]; [|eauto].
  unfold response_json, lift. destruct (snd resp); unfold ret, raise; eauto.
Qed.


(** ** Runs of the per-ticket steps *)

Lemma bind_Ok_inv {A B} (m : M A) (k : A → M B) (w w' : World) (b : B) :
  bind m k w = (Ok b, w') →
  ∃ a w1, m w = (Ok a, w1) ∧ k a w1 = (Ok b, w').
Proof.
  unfold bind. destruct (m w) as [[a|e] w1]; [eauto | done].
Qed.

Lemma bind_ext {A B} (m : M A) (k1 k2 : A → M B) (w : World) :
  (∀ a w1, k1 a w1 = k2 a w1) → bind m k1 w = bind m k2 w.
Proof.
  intros H. unfold bind. destruct (m w) as [[a|e] w1]; [apply H | done].
Qed.

Lemma lift_Ok_inv {A} (r : result A) (w w' : World) (a : A) :
  lift r w = (Ok a, w') → r = Ok a ∧ w' = w.
Proof. unfold lift. by intros [= -> ->]. Qed.



Lemma generate_trace (issue : json) (w w' : World) (res : result string) :
  generate_ai_reply host config issue w = (res, w') →
  ∃ calls, w' = after_requests w calls
    ∧ (calls = [] ∨ ∃ api_key prompt, calls = [completion_request config api_key prompt]).
Proof.
  unfold generate_ai_reply.
  assert (∀ r : result string, lift r w = (res, w') →
          ∃ calls, w' = after_requests w calls
            ∧ (calls = [] ∨ ∃ api_key prompt,
                 calls = [completion_request config api_key prompt])) as Hpure.
  { unfold lift. intros r [= _ <-]. exists []. by rewrite after_requests_nil; eauto. }
  destruct (openai_api_key config) as [api_key|]; [|apply Hpure].
  destruct (String.eqb api_key EmptyString); [apply Hpure|].
  unfold bind, lift.
  destruct (py_get issue "fields" (JObj [])) as [fields|]; [|by apply (Hpure (Raise e))].
  destruct (py_get fields "summary" (JStr EmptyString)) as [summary|];
    [|by apply (Hpure (Raise e))].
  destruct (py_get fields "description" (JStr EmptyString)) as [description|];
    [|by apply (Hpure (Raise e))].
  set (rq := completion_request config api_key (prompt_text host summary description)).
  assert (∀ r : result string, (r, after_requests w [rq]) = (res, w') →
          ∃ calls, w' = after_requests w calls
            ∧ (calls = [] ∨ ∃ api_key prompt,
                 calls = [completion_request config api_key prompt])) as Hsent.
  { intros r [= _ <-]. exists [rq]. split; [done|]. right. by exists api_key, (prompt_text host summary description). }
  destruct (send_trace rq w) as [[resp|e] ->]; [|apply Hsent].
  destruct (raise_for_status_world resp (after_requests w [rq])) as [[[]|e] ->];
    [|apply Hsent].
  unfold response_json. destruct (snd resp) as [data|]; unfold ret, raise; [|apply Hsent].
  destruct (py_item data "choices"); [|apply Hsent].
  destruct (py_first a); [|apply Hsent].
  destruct (py_item a0 "message"); [|apply Hsent].
  destruct (py_item a1 "content"); apply Hsent.
Qed.




Lemma transition_trace (key : json) (transition_name : string) (w w' : World)
    (res : result unit) :
  jira_transition_issue host config key transition_name w = (res, w') →
  (w' = after_requests w [list_transitions_request host config key]
   ∧ ∃ e, res = Raise e)
  ∨ ∃ id, w' = after_requests w [list_transitions_request host config key;
                                  transition_request host config key id].
Proof.
  unfold jira_transition_issue, bind.
  destruct (list_transitions_trace key w) as [[transitions|e] ->];
    [|intros [= <- <-]; eauto].
  unfold lift.
  destruct (py_iter transitions) as [items|e]; [|intros [= <- <-]; eauto].
  destruct (first_named items transition_name) as [[item|]|e];
    [|intros [= <- <-]; eauto..].
  destruct (truthy item); [|intros [= <- <-]; eauto].
  destruct (py_item item "id") as [id|e]; [|intros [= <- <-]; eauto].
  destruct (send_trace (transition_request host config key id)
              (after_requests w [list_transitions_request host config key]))
    as [[resp|e] ->]; rewrite after_requests_app; simpl.
  - destruct (raise_for_status_world resp
                (after_requests w [list_transitions_request host config key;
                                   transition_request host config key id]))
      as [r ->]. intros [= _ <-]. eauto.
  - intros [= _ <-]. eauto.
Qed.

(** Whatever the outcome, the requests of one ticket come in the order
    comment, assignment, and up to three times listing and transition:
    what was sent is a prefix of that sequence, and the whole of it when
    the ticket was counted. *)
Lemma process_one_ticket_order (issue key : json) (assignee_account_id : string)
    (w w' : World) (res : result Z) (reply : string) (w0 : World) :
  py_get issue "key" JNull = Ok key →
  truthy key = true →
  generate_ai_reply host config issue w = (Ok reply, w0) →
  process_issues host config [issue] assignee_account_id w = (res, w') →
  ∃ id1 id2 id3 trace,
    let c := comment_request host config key reply in
    let a := assign_request host config key assignee_account_id in
    let l := list_transitions_request host config key in
    let t := transition_request host config key in
    w' = after_requests w0 trace
    ∧ trace `prefix_of` [c; a; l; t id1; l; t id2; l; t id3]
    ∧ (res = Ok 1 ∨ ∃ e, res = Raise e)
    ∧ (res = Ok 1 → trace = [c; a; l; t id1; l; t id2; l; t id3]).
Proof.
  intros Hkey Htruthy Hgen. unfold process_issues, process_from, bind, lift.
  rewrite Hkey. simpl. rewrite Htruthy. simpl. unfold bind. rewrite Hgen.
  destruct (add_comment_trace key reply w0) as [[[]|e] ->];
    [|intros [= <- <-]; exists JNull, JNull, JNull; eexists;
      repeat split; eauto; solve [by eexists | done]].
  destruct (assign_trace key assignee_account_id
              (after_requests w0 [comment_request host config key reply]))
    as [[[]|e] ->]; rewrite after_requests_app; simpl;
    [|intros [= <- <-]; exists JNull, JNull, JNull; eexists;
      repeat split; eauto; solve [by eexists | done]].
  destruct (jira_transition_issue host config key (todo_transition config) _)
    as [r1 w1] eqn:E1.
  apply transition_trace in E1 as [[-> [e ->]]|[id1 ->]]; rewrite after_requests_app; simpl.
  { intros [= <- <-]. exists JNull, JNull, JNull. eexists.
    repeat split; eauto; solve [by eexists | done]. }
  destruct r1 as [[]|e];
    [|intros [= <- <-]; exists id1, JNull, JNull; eexists;
      repeat split; eauto; solve [by eexists | done]].
  destruct (jira_transition_issue host config key (in_progress_transition config) _)
    as [r2 w2] eqn:E2.
  apply transition_trace in E2 as [[-> [e ->]]|[id2 ->]]; rewrite after_requests_app; simpl.
  { intros [= <- <-]. exists id1, JNull, JNull. eexists.
    repeat split; eauto; solve [by eexists | done]. }
  destruct r2 as [[]|e];
    [|intros [= <- <-]; exists id1, id2, JNull; eexists;
      repeat split; eauto; solve [by eexists | done]].
  destruct (jira_transition_issue host config key (waiting_transition config) _)
    as [r3 w3] eqn:E3.
  apply transition_trace in E3 as [[-> [e ->]]|[id3 ->]]; rewrite after_requests_app; simpl.
  { intros [= <- <-]. exists id1, id2, JNull. eexists.
    repeat split; eauto; solve [by eexists | done]. }
  destruct r3 as [[]|e]; unfold ret; intros [= <- <-]; exists id1, id2, id3; eexists;
    (repeat split; eauto; try solve [by eexists | done]).
Qed.

(** The count of a completed batch is the number of its tickets that
    have a key. *)
Lemma process_from_count (issues : list json) (account : string) (count n : Z)
    (w w' : World) :
  process_from host config issues account count w = (Ok n, w') →
  n = count + Z.of_nat (length (List.filter has_key issues)).
Proof.
  revert count w. induction issues as [|issue rest IH]; intros count w; simpl.
  - unfold ret. intros [= <- _]. simpl. lia.
  - intros (key & w1 & [Hkey ->]%lift_Ok_inv & H)%bind_Ok_inv.
    unfold has_key at 1. rewrite Hkey.
    destruct (truthy key) eqn:E; simpl in H.
    + apply bind_Ok_inv in H as (reply & w2 & _ & H).
      do 5 (apply bind_Ok_inv in H as (? & ? & _ & H)).
      apply IH in H. simpl length. lia.
    + apply IH in H. lia.
Qed.

(** ** Tickets without a key *)

Lemma keyless_key (issue : json) :
  keyless issue →
  ∃ key, py_get issue "key" JNull = Ok key ∧ truthy key = false.
Proof.
  intros (entries & -> & [H|[H|H]]); simpl; rewrite H; eauto.
Qed.

Lemma process_from_skip (issue : json) (rest : list json) (account : string)
    (count : Z) (w : World) :
  keyless issue →
  process_from host config (issue :: rest) account count w
  = process_from host config rest account count w.
Proof.
  intros (key & Hkey & Hfalse)%keyless_key.
  simpl. unfold bind, lift. by rewrite Hkey, Hfalse.
Qed.

Lemma process_from_drop (before after : list json) (issue : json) (account : string)
    (count : Z) (w : World) :
  keyless issue →
  process_from host config (before ++ issue :: after) account count w
  = process_from host config (before ++ after) account count w.
Proof.
  intros Hissue. revert count w.
  induction before as [|x before IH]; intros count w.
  - by apply process_from_skip.
  - simpl. apply bind_ext. intros key w1.
    destruct (truthy key); simpl; [|apply IH].
    repeat (apply bind_ext; intros ? ?). apply IH.
Qed.

(** C10. A candidate that has no key, or an empty one, anywhere in the
    list, changes nothing: the run over the list is the run over the list
    without it, with the same requests, the same world and the same
    count. *)
Theorem process_issues_skips_keyless (before after : list json) (issue : json)
    (assignee_account_id : string) (w : World) :
  keyless issue →
  process_issues host config (before ++ issue :: after) assignee_account_id w
  = process_issues host config (before ++ after) assignee_account_id w.
Proof. intros H. by apply process_from_drop. Qed.

Corollary process_issues_only_keyless (issue : json) (assignee_account_id : string)
    (w : World) :
  keyless issue →
  process_issues host config [issue] assignee_account_id w = (Ok 0, w).
Proof. intros H. unfold process_issues. by rewrite process_from_skip. Qed.

(** ** What a run leaves untouched *)

Lemma only_requests_ret {A} (a : A) : only_requests (ret a).
Proof. intros w r w' [= _ <-]. exists []. by rewrite after_requests_nil. Qed.

Lemma only_requests_raise {A} (e : exn) : only_requests (@raise A e).
Proof. intros w r w' [= _ <-]. exists []. by rewrite after_requests_nil. Qed.

Lemma only_requests_lift {A} (x : result A) : only_requests (lift x).
Proof. intros w r w' [= _ <-]. exists []. by rewrite after_requests_nil. Qed.

Lemma only_requests_bind {A B} (m : M A) (k : A → M B) :
  only_requests m → (∀ a, only_requests (k a)) → only_requests (bind m k).
Proof.
  intros Hm Hk w r w'. unfold bind.
  destruct (m w) as [[a|e] w1] eqn:E; destruct (Hm _ _ _ E) as [t1 ->].
  - intros [t2 ->]%Hk. exists (t1 ++ t2). by rewrite after_requests_app.
  - intros [= _ <-]. eauto.
Qed.

Lemma only_requests_send (rq : Request) : only_requests (send host rq).
Proof.
  intros w r w'. destruct (send_trace rq w) as [res ->]. intros [= _ <-]. eauto.
Qed.

Lemma only_requests_raise_for_status (response : Z * option json) :
  only_requests (raise_for_status response).
Proof.
  unfold raise_for_status.
  destruct (_ && _); [apply only_requests_raise | apply only_requests_ret].
Qed.

Lemma only_requests_response_json (response : Z * option json) :
  only_requests (response_json response).
Proof.
  unfold response_json.
  destruct (snd response); [apply only_requests_ret | apply only_requests_raise].
Qed.

Create HintDb frame.
#[local] Hint Resolve only_requests_ret only_requests_raise only_requests_lift
  only_requests_send only_requests_raise_for_status only_requests_response_json : frame.
#[local] Hint Extern 2 (only_requests (bind _ _)) =>
  apply only_requests_bind; [|intros ?] : frame.

Lemma only_requests_search (last_run : datetime) :
  only_requests (jira_search_issues host config last_run).
Proof. unfold jira_search_issues. auto 10 with frame. Qed.

Lemma only_requests_comment (key : json) (text : string) :
  only_requests (jira_add_comment host config key text).
Proof. unfold jira_add_comment. auto with frame. Qed.

Lemma only_requests_assign (key : json) (account : string) :
  only_requests (jira_assign_issue host config key account).
Proof. unfold jira_assign_issue. auto with frame. Qed.

Lemma only_requests_transition (key : json) (transition_name : string) :
  only_requests (jira_transition_issue host config key transition_name).
Proof.
  unfold jira_transition_issue, jira_list_transitions.
  repeat (apply only_requests_bind; [auto 10 with frame | intros ?]).
  destruct a1 as [item|]; [destruct (truthy item)|]; auto 10 with frame.
Qed.

Lemma only_requests_generate (issue : json) :
  only_requests (generate_ai_reply host config issue).
Proof.
  intros w r w' H. destruct (generate_trace issue w w' r H) as (calls & -> & _). eauto.
Qed.

#[local] Hint Resolve only_requests_comment only_requests_assign
  only_requests_transition only_requests_generate : frame.

Lemma only_requests_process (issues : list json) (account : string) (count : Z) :
  only_requests (process_from host config issues account count).
Proof.
  revert count. induction issues as [|issue rest IH]; intros count; simpl.
  - apply only_requests_ret.
  - apply only_requests_bind; [auto with frame | intros key].
    destruct (truthy key); simpl; [|apply IH].
    repeat (apply only_requests_bind; [auto with frame | intros ?]). apply IH.
Qed.

Lemma now_local_files (w w' : World) (r : result datetime) :
  now_local host config w = (r, w') → files w' = files w.
Proof.
  unfold now_local, datetime_now, datetime_now_in.
  destruct (timezone config) as [zone|]; [destruct (_ && _)|]; by intros [= _ <-].
Qed.

Lemma a_day_ago_files (w w' : World) (r : result datetime) :
  a_day_ago host w = (r, w') → files w' = files w.
Proof. unfold a_day_ago, bind, datetime_now, lift. by intros [= _ <-]. Qed.

Lemma load_last_run_files (path : string) (w w' : World) (r : result datetime) :
  load_last_run host path w = (r, w') → files w' = files w.
Proof.
  unfold load_last_run. destruct (files w !! path) as [node|]; [|apply a_day_ago_files].
  unfold catch, lift. destruct (read_last_run host path node); [by intros [= _ <-]|].
  apply a_day_ago_files.
Qed.

Lemma only_requests_files {A} (m : M A) (w w' : World) (r : result A) :
  only_requests m → m w = (r, w') → files w' = files w.
Proof. intros Hm [t ->]%Hm. done. Qed.

(** C1, as the code has it. For a run that enters processing (the
    configuration loads, the time is within the window, the search
    returns candidates): the batch leaves the files as they were; when
    the batch raises an error, [main] ends with that error in the world
    the batch left, so the watermark file is not written; when the batch
    returns a count and the file can be written, [main] overwrites the
    watermark with the time of the run, reports the count and returns
    0. *)
Theorem main_watermark (w w1 w2 w3 : World)
    (now last_run : datetime) (issues : json) (candidates : list json) :
  load_config (environ w) = Ok config →
  now_local host config w = (Ok now, w1) →
  within_reply_window config now = true →
  load_last_run host (last_run_path config) w1 = (Ok last_run, w2) →
  jira_search_issues host config last_run w2 = (Ok issues, w3) →
  truthy issues = true →
  py_iter issues = Ok candidates →
  let batch :=
    process_issues host config candidates (jira_assignee_account_id config) w3 in
  let path := last_run_path config in
  files (snd batch) = files w
  ∧ (∀ e, fst batch = Raise e → main host w = (Raise e, snd batch))
  ∧ (∀ n, fst batch = Ok n → writable host path = true →
       main host w
       = (Ok 0, after_print
                  (with_file path (Contents (Some (watermark now))) (snd batch))
                  ("Processed " +:+ str_of_Z n +:+ " issues."))).
Proof.
  intros Hconfig Hnow Hwindow Hload Hsearch Htruthy Hiter batch path. subst path.
  assert (main host w = run host config w) as ->.
  { unfold main. by rewrite Hconfig. }
  unfold run, bind. rewrite Hnow, Hwindow. simpl.
  rewrite Hload, Hsearch, Htruthy. simpl. rewrite Hiter.
  fold batch. destruct batch as [[n|e] w4] eqn:Hbatch; simpl.
  - split; [|split; [done|]].
    + rewrite (only_requests_files _ _ _ _ (only_requests_process _ _ _) Hbatch).
      rewrite (only_requests_files _ _ _ _ (only_requests_search _) Hsearch).
      rewrite (load_last_run_files _ _ _ _ Hload). by apply now_local_files in Hnow.
    + intros ? [= <-] Hw. unfold save_last_run. rewrite Hw. done.
  - split; [|split; [|done]].
    + rewrite (only_requests_files _ _ _ _ (only_requests_process _ _ _) Hbatch).
      rewrite (only_requests_files _ _ _ _ (only_requests_search _) Hsearch).
      rewrite (load_last_run_files _ _ _ _ Hload). by apply now_local_files in Hnow.
    + by intros ? [= <-].
Qed.

(** ** The watermark *)

Lemma damaged_raises (path : string) (node : fnode) :
  damaged host node ↔ ∃ e, read_last_run host path node = Raise e.
Proof.
  split.
  - intros [| |payload e H|payload stamp e H1 H2]; simpl; eauto.
    + rewrite H. simpl. eauto.
    + rewrite H1. simpl. eauto.
  - intros [e H]. destruct node as [|[payload|]]; [constructor| |constructor].
    simpl in H. destruct (py_item payload "last_run") as [stamp|e'] eqn:E.
    + simpl in H. by eapply damaged_bad_stamp.
    + by eapply damaged_no_stamp.
Qed.

(** C7. With a clock that reads a valid date after 0001-01-01, so that
    the day before exists: loading the watermark always returns a
    timestamp; when the file is missing, or cannot be opened, or holds no
    JSON, or no timestamp under "last_run", or one that is not in ISO
    format, it returns the reading of the clock moved back by exactly
    86 400 000 000 microseconds; and when the file holds a timestamp in
    ISO format under "last_run", it returns that timestamp. *)
Theorem load_last_run_spec (path : string) (w : World) (yesterday : datetime) :
  valid_datetime (clock host (ticks w)) →
  minus_one_day (clock host (ticks w)) = Ok yesterday →
  wall_clock yesterday = wall_clock (clock host (ticks w)) - 86400000000
  ∧ (∃ d w', load_last_run host path w = (Ok d, w'))
  ∧ (files w !! path = None →
     load_last_run host path w = (Ok yesterday, tick w))
  ∧ (∀ node, files w !! path = Some node → damaged host node →
     load_last_run host path w = (Ok yesterday, tick w))
  ∧ (∀ payload stamp d,
       files w !! path = Some (Contents (Some payload)) →
       py_item payload "last_run" = Ok stamp →
       fromisoformat host stamp = Ok d →
       load_last_run host path w = (Ok d, w)).
Proof.
  intros Hvalid Hday.
  assert (a_day_ago host w = (Ok yesterday, tick w)) as Hago.
  { unfold a_day_ago, bind, datetime_now, lift. by rewrite Hday. }
  unfold load_last_run, catch, lift.
  split; [|split; [|split; [|split]]].
  - by apply minus_one_day_wall_clock.
  - destruct (files w !! path) as [node|]; [|eauto].
    destruct (read_last_run host path node); eauto.
  - by intros ->.
  - intros node -> [e He]%(damaged_raises path). by rewrite He.
  - intros payload stamp d -> Hstamp Hd. simpl. rewrite Hstamp. simpl. by rewrite Hd.
Qed.

(** ** The reply generator *)

(** C9. When no generation key is configured ([None] or the empty
    string), the reply for a ticket with a summary is the fixed template
    around that summary, no request is sent, and the text contains the
    summary. *)
Theorem generate_ai_reply_without_key (issue : json) (summary : string) (w : World) :
  openai_api_key config = None ∨ openai_api_key config = Some EmptyString →
  has_summary issue summary →
  generate_ai_reply host config issue w
  = (Ok ("Thanks for reaching out! We received **" +:+ summary +:+ "**. "
         +:+ "Our team will review this shortly and respond with next steps."), w)
  ∧ py_in summary
      ("Thanks for reaching out! We received **" +:+ summary +:+ "**. "
       +:+ "Our team will review this shortly and respond with next steps.") = true.
Proof.
  intros Hkey (entries & fields & -> & Hfields & Hsummary).
  split; [|apply py_in_middle].
  assert (build_default_reply host (JObj entries)
          = Ok (default_reply_text summary)) as Hdefault.
  { unfold build_default_reply. simpl. rewrite Hfields. simpl. by rewrite Hsummary. }
  unfold generate_ai_reply, lift.
  destruct Hkey as [-> | ->]; simpl; by rewrite Hdefault.
Qed.

(** A ticket without fields, or without a summary among them, is
    answered with the template around "your ticket". *)
Lemma generate_ai_reply_no_summary (entries : list (string * json)) (w : World) :
  openai_api_key config = None ∨ openai_api_key config = Some EmptyString →
  assoc entries "fields" = None
  ∨ (∃ fields, assoc entries "fields" = Some (JObj fields)
               ∧ assoc fields "summary" = None) →
  generate_ai_reply host config (JObj entries) w
  = (Ok (default_reply_text "your ticket"), w).
Proof.
  intros Hkey Hfields.
  assert (build_default_reply host (JObj entries)
          = Ok (default_reply_text "your ticket")) as Hdefault.
  { unfold build_default_reply. simpl.
    destruct Hfields as [-> | (fields & -> & Hnone)]; simpl; [done|].
    by rewrite Hnone. }
  unfold generate_ai_reply, lift.
  destruct Hkey as [-> | ->]; simpl; by rewrite Hdefault.
Qed.

(** ** The search *)

(** C3, as the code has it. The search sends one GET to the search
    endpoint, whose only parameter is the query: the configured project
    key, an empty assignee, the status label "To-Do" (a constant of the
    program, not a value of the configuration), a status category other
    than Done, and [updated >=] the watermark in ISO format, ordered by
    creation; in particular the query contains the project clause, the
    status clause and the [updated >=] clause with the watermark. *)
Theorem jira_search_issues_query (last_run : datetime) (w : World) :
  let jql := search_jql config last_run in
  (∃ res, jira_search_issues host config last_run w
          = (res, after_requests w [search_request config last_run]))
  ∧ method (search_request config last_run) = GET
  ∧ url (search_request config last_run)
    = jira_base_url config +:+ "/rest/api/3/search/jql"
  ∧ params (search_request config last_run) = [("jql", jql)]
  ∧ jql = "project = " +:+ dquote +:+ project_key config +:+ dquote
          +:+ " AND assignee is EMPTY AND status = " +:+ dquote +:+ "To-Do" +:+ dquote
          +:+ " AND statusCategory != Done AND updated >= "
          +:+ dquote +:+ isoformat last_run +:+ dquote +:+ " ORDER BY created ASC"
  ∧ py_in ("project = " +:+ dquote +:+ project_key config +:+ dquote) jql = true
  ∧ py_in ("status = " +:+ dquote +:+ "To-Do" +:+ dquote) jql = true
  ∧ py_in ("updated >= " +:+ dquote +:+ isoformat last_run +:+ dquote) jql = true.
Proof.
  intros jql. split; [|split; [done|split; [done|split; [done|split; [|split; [|split]]]]]].
  - unfold jira_search_issues, bind.
    destruct (send_trace (search_request config last_run) w) as [[resp|e] ->]; [|eauto].
    destruct (raise_for_status_world resp
                (after_requests w [search_request config last_run]))
      as [[[]|e] ->]; [|eauto].
    unfold response_json, lift. destruct (snd resp); unfold ret, raise; eauto.
  - reflexivity.
  - apply (py_in_at _ EmptyString
             (" AND assignee is EMPTY AND status = " +:+ dquote +:+ "To-Do" +:+ dquote
              +:+ " AND statusCategory != Done AND updated >= "
              +:+ dquote +:+ isoformat last_run +:+ dquote +:+ " ORDER BY created ASC")).
    rewrite !append_assoc. reflexivity.
  - apply (py_in_at _
             ("project = " +:+ dquote +:+ project_key config +:+ dquote
              +:+ " AND assignee is EMPTY AND ")
             (" AND statusCategory != Done AND updated >= "
              +:+ dquote +:+ isoformat last_run +:+ dquote +:+ " ORDER BY created ASC")).
    rewrite !append_assoc. reflexivity.
  - apply (py_in_at _
             ("project = " +:+ dquote +:+ project_key config +:+ dquote
              +:+ " AND assignee is EMPTY AND status = " +:+ dquote +:+ "To-Do" +:+ dquote
              +:+ " AND statusCategory != Done AND ")
             " ORDER BY created ASC").
    rewrite !append_assoc. reflexivity.
Qed.

(** ** Loading the configuration *)

Lemma get_env_optional (env : gmap string string) (name fallback : string) :
  get_env env name (Some fallback) = Ok (env_or env name fallback).
Proof. unfold get_env, env_or. by destruct (env !! name). Qed.

Lemma get_env_required (env : gmap string string) (name : string) :
  get_env env name None
  = match env !! name with
    | Some value => Ok value
    | None => Raise (ValueError ("Missing required environment variable: " +:+ name))
    end.
Proof. done. Qed.

Lemma parse_time_env_raises (env : gmap string string) (name fallback : string) (e : exn) :
  parse_time_env env name fallback = Raise e → ∃ message, e = ValueError message.
Proof.
  unfold parse_time_env.
  destruct (parse_hours_minutes _); simpl; [done|]. intros [= <-]. eauto.
Qed.

Lemma load_config_missing (env : gmap string string) (name : string) :
  name ∈ required_variables → env !! name = None →
  ∃ message, load_config env = Raise (ValueError message).
Proof.
  intros Hname Hnone. unfold load_config.
  destruct (parse_time_env env "WINDOW_START" "05:30") as [start|e] eqn:Es;
    [|destruct (parse_time_env_raises _ _ _ _ Es) as [m ->]; simpl; eauto].
  destruct (parse_time_env env "WINDOW_END" "17:30") as [end_|e] eqn:Ee;
    [|destruct (parse_time_env_raises _ _ _ _ Ee) as [m ->]; simpl; eauto].
  simpl. rewrite !get_env_required, !get_env_optional.
  destruct (env !! "JIRA_BASE_URL") eqn:E1; simpl; [|eauto].
  destruct (env !! "JIRA_EMAIL") eqn:E2; simpl; [|eauto].
  destruct (env !! "JIRA_API_TOKEN") eqn:E3; simpl; [|eauto].
  destruct (env !! "JIRA_ASSIGNEE_ACCOUNT_ID") eqn:E4; simpl; [|eauto].
  unfold required_variables in Hname.
  repeat (apply elem_of_cons in Hname as [->|Hname]; [congruence|]).
  by apply elem_of_nil in Hname.
Qed.

Lemma load_config_raises (env : gmap string string) (e : exn) :
  load_config env = Raise e → ∃ message, e = ValueError message.
Proof.
  unfold load_config.
  destruct (parse_time_env env "WINDOW_START" "05:30") as [start|e'] eqn:Es;
    [|destruct (parse_time_env_raises _ _ _ _ Es) as [m ->]; simpl; intros [= <-]; eauto].
  destruct (parse_time_env env "WINDOW_END" "17:30") as [end_|e'] eqn:Ee;
    [|destruct (parse_time_env_raises _ _ _ _ Ee) as [m ->]; simpl; intros [= <-]; eauto].
  simpl. rewrite !get_env_required, !get_env_optional.
  destruct (env !! "JIRA_BASE_URL"); simpl; [|intros [= <-]; eauto].
  destruct (env !! "JIRA_EMAIL"); simpl; [|intros [= <-]; eauto].
  destruct (env !! "JIRA_API_TOKEN"); simpl; [|intros [= <-]; eauto].
  destruct (env !! "JIRA_ASSIGNEE_ACCOUNT_ID"); simpl; [|intros [= <-]; eauto].
  done.
Qed.

Lemma load_config_present (env : gmap string string) (start end_ : time) :
  (∀ name, name ∈ required_variables → is_Some (env !! name)) →
  parse_time_env env "WINDOW_START" "05:30" = Ok start →
  parse_time_env env "WINDOW_END" "17:30" = Ok end_ →
  load_config env = Ok (configured env start end_).
Proof.
  intros Hreq Hs He.
  destruct (Hreq "JIRA_BASE_URL") as [v1 E1]; [set_solver|].
  destruct (Hreq "JIRA_EMAIL") as [v2 E2]; [set_solver|].
  destruct (Hreq "JIRA_API_TOKEN") as [v3 E3]; [set_solver|].
  destruct (Hreq "JIRA_ASSIGNEE_ACCOUNT_ID") as [v4 E4]; [set_solver|].
  unfold load_config. rewrite Hs, He. simpl.
  rewrite !get_env_required, !get_env_optional, E1, E2, E3, E4. simpl.
  unfold configured, env_or. by rewrite E1, E2, E3, E4.
Qed.

(** C8, as the code has it. When a required variable is absent, loading
    fails with an error, [main] prints its message and returns 1, and
    neither a request nor a file is touched. When every required
    variable is present and the two window variables parse, loading
    returns the configuration with the documented defaults for the
    variables that are unset; an unset window variable parses to 05:30
    and 17:30. *)
Theorem load_config_spec (w : World) :
  let env := environ w in
  (∀ name, name ∈ required_variables → env !! name = None →
     ∃ message,
       load_config env = Raise (ValueError message)
       ∧ main host w = (Ok 1, after_print w message))
  ∧ (∀ start end_,
       (∀ name, name ∈ required_variables → is_Some (env !! name)) →
       parse_time_env env "WINDOW_START" "05:30" = Ok start →
       parse_time_env env "WINDOW_END" "17:30" = Ok end_ →
       load_config env = Ok (configured env start end_))
  ∧ (env !! "WINDOW_START" = None →
     parse_time_env env "WINDOW_START" "05:30" = Ok (mk_time 5 30 0 0))
  ∧ (env !! "WINDOW_END" = None →
     parse_time_env env "WINDOW_END" "17:30" = Ok (mk_time 17 30 0 0)).
Proof.
  intros env. split; [|split; [|split]].
  - intros name Hname Hnone.
    destruct (load_config_missing env name Hname Hnone) as [message Hload].
    exists message. split; [done|]. unfold main. fold env. by rewrite Hload.
  - apply load_config_present.
  - intros H. unfold parse_time_env. by rewrite H.
  - intros H. unfold parse_time_env. by rewrite H.
Qed.

End Traces.

(** * Instances on the test bench *)

(** C2 on the window 22:00 to 06:00 at 23:00. *)
Lemma within_reply_window_overnight :
  within_reply_window overnight_config late_evening = true
  ∧ time_of_day (dt_time late_evening) >= time_of_day (window_start overnight_config).
Proof.
  destruct (within_reply_window_spec overnight_config late_evening) as [_ H].
  - unfold valid_time; simpl; lia.
  - unfold valid_time; simpl; lia.
  - unfold valid_time; simpl; lia.
  - split; [|vm_compute; discriminate].
    apply H; [vm_compute; reflexivity|]. left. vm_compute. discriminate.
Defined.


(** C1: a run whose batch completes writes the watermark. *)
Lemma main_completed_run :
  main (bench_host 201) bench_world
  = (Ok 0,
     after_print
       (with_file "last_run.json" (Contents (Some (watermark bench_now)))
          (snd (process_issues (bench_host 201) bench_config [bench_issue] "712020:abc"
                  (after_requests (tick (tick bench_world))
                     [search_request bench_config
                        (mk_datetime 2024 1 1 10 0 0 0 None)]))))
       "Processed 1 issues.").
Proof.
  destruct (main_watermark (bench_host 201) bench_config bench_world
              (tick bench_world) (tick (tick bench_world))
              (after_requests (tick (tick bench_world))
                 [search_request bench_config (mk_datetime 2024 1 1 10 0 0 0 None)])
              bench_now (mk_datetime 2024 1 1 10 0 0 0 None)
              (JArr [bench_issue]) [bench_issue])
    as (_ & _ & H); [vm_compute; reflexivity ..|].
  apply (H 1); vm_compute; reflexivity.
Defined.

(** C1: a run whose first comment is refused ends with the error and
    writes no watermark, although it entered processing. *)
Lemma main_aborted_run :
  fst (main (bench_host 500) bench_world) = Raise (HTTPError 500)
  ∧ sent (snd (main (bench_host 500) bench_world))
    = [search_request bench_config (mk_datetime 2024 1 1 10 0 0 0 None);
       comment_request (bench_host 500) bench_config (JStr "TS-1")
         (default_reply_text "Test ticket")]
  ∧ files (snd (main (bench_host 500) bench_world)) !! "last_run.json" = None.
Proof. vm_compute. repeat split. Qed.

(** C3: the status clause of the query is not taken from the
    configuration. *)
Lemma search_status_not_configured :
  py_in ("status = " +:+ dquote +:+ todo_transition renamed_config +:+ dquote)
    (search_jql renamed_config bench_now) = false
  ∧ py_in (todo_transition renamed_config) (search_jql renamed_config bench_now) = false
  ∧ forallb (λ value, negb (String.eqb value "To-Do")) (config_values renamed_config)
    = true
  ∧ search_jql renamed_config bench_now = search_jql bench_config bench_now
  ∧ search_jql renamed_config bench_now
    = "project = " +:+ dquote +:+ "TS" +:+ dquote
      +:+ " AND assignee is EMPTY AND status = " +:+ dquote +:+ "To-Do" +:+ dquote
      +:+ " AND statusCategory != Done AND updated >= "
      +:+ dquote +:+ "2024-01-02T10:00:00" +:+ dquote +:+ " ORDER BY created ASC".
Proof. vm_compute. repeat split. Qed.



(** C7 on a watermark file that cannot be opened. *)
Lemma load_last_run_locked :
  load_last_run (bench_host 201) "last_run.json" locked_world
  = (Ok (mk_datetime 2024 1 1 10 0 0 0 None), tick locked_world).
Proof.
  destruct (load_last_run_spec (bench_host 201) "last_run.json" locked_world
              (mk_datetime 2024 1 1 10 0 0 0 None)) as (_ & _ & _ & H & _).
  - unfold valid_datetime, valid_time.
    repeat split; vm_compute; (reflexivity || discriminate).
  - reflexivity.
  - apply (H NoAccess); [reflexivity | constructor].
Defined.

(** C8 without JIRA_EMAIL, and on the environment of the bench. *)
Lemma load_config_examples :
  main (bench_host 201) (mk_World no_email_env ∅ [] [] 0)
  = (Ok 1, mk_World no_email_env ∅ [] ["Missing required environment variable: JIRA_EMAIL"] 0)
  ∧ load_config bench_env = Ok bench_config.
Proof.
  destruct (load_config_spec (bench_host 201) (mk_World no_email_env ∅ [] [] 0))
    as (Hmissing & _).
  destruct (load_config_spec (bench_host 201) bench_world) as (_ & Hpresent & _).
  split.
  - destruct (Hmissing "JIRA_EMAIL") as (message & Hload & Hmain).
    + unfold required_variables. set_solver.
    + reflexivity.
    + rewrite Hmain. vm_compute in Hload. injection Hload as <-. reflexivity.
  - change bench_env with (environ bench_world).
    rewrite (Hpresent (mk_time 5 30 0 0) (mk_time 17 30 0 0)).
    + vm_compute. reflexivity.
    + intros name Hname. unfold required_variables in Hname.
      repeat (apply elem_of_cons in Hname as [->|Hname]; [eexists; reflexivity|]).
      by apply elem_of_nil in Hname.
    + reflexivity.
    + reflexivity.
Defined.

(** C8: every required variable is there, and loading fails. *)
Lemma load_config_bad_window :
  Forall (λ name, is_Some (bad_window_env !! name)) required_variables
  ∧ load_config bad_window_env
    = Raise (ValueError "Invalid time value for WINDOW_START: not-a-time").
Proof.
  split; [|vm_compute; reflexivity].
  repeat constructor; eexists; reflexivity.
Qed.

(** C9 on the ticket of the bench. *)
Lemma generate_ai_reply_bench :
  generate_ai_reply (bench_host 201) bench_config bench_issue bench_world
  = (Ok ("Thanks for reaching out! We received **Test ticket**. "
         +:+ "Our team will review this shortly and respond with next steps."),
     bench_world)
  ∧ py_in "Test ticket"
      ("Thanks for reaching out! We received **Test ticket**. "
       +:+ "Our team will review this shortly and respond with next steps.") = true.
Proof.
  apply (generate_ai_reply_without_key (bench_host 201) bench_config bench_issue
           "Test ticket" bench_world).
  - by left.
  - unfold has_summary, bench_issue. by eexists _, _.
Defined.

(** C10 on a ticket without a key between two others. *)
Lemma process_issues_skips_anonymous :
  process_issues (bench_host 201) bench_config
    ([bench_issue] ++ anonymous_issue :: [bench_issue]) "712020:abc" bench_world
  = process_issues (bench_host 201) bench_config
      ([bench_issue] ++ [bench_issue]) "712020:abc" bench_world.
Proof.
  apply (process_issues_skips_keyless (bench_host 201) bench_config).
  exists [("fields", JObj [("summary", JStr "No key")])]. split; [reflexivity|]. by left.
Defined.

(** * Further properties *)

(** ** The first error of the configuration *)

(** The error of [load_config] is that of the first thing wrong, in the
    order WINDOW_START, WINDOW_END, then the required variables as
    listed: a window bound that is no time is reported whatever else is
    missing, and with both bounds right the message names the first
    required variable that is absent. *)
Theorem load_config_first_error (env : gmap string string) :
  (∀ e, parse_time_env env "WINDOW_START" "05:30" = Raise e →
        load_config env = Raise e)
  ∧ (∀ start e,
       parse_time_env env "WINDOW_START" "05:30" = Ok start →
       parse_time_env env "WINDOW_END" "17:30" = Raise e →
       load_config env = Raise e)
  ∧ (∀ start end_ (before : list string) (name : string) (after : list string),
       parse_time_env env "WINDOW_START" "05:30" = Ok start →
       parse_time_env env "WINDOW_END" "17:30" = Ok end_ →
       required_variables = before ++ name :: after →
       Forall (λ earlier, is_Some (env !! earlier)) before →
       env !! name = None →
       load_config env
       = Raise (ValueError ("Missing required environment variable: " +:+ name))).
Proof.
  split; [|split].
  - intros e H. unfold load_config. by rewrite H.
  - intros start e Hs He. unfold load_config. by rewrite Hs, He.
  - intros start end_ before name after Hs He Hreq Hbefore Hnone.
    unfold load_config. rewrite Hs, He. simpl.
    rewrite !get_env_required.
    unfold required_variables in Hreq.
    destruct before as [|b1 [|b2 [|b3 [|b4 before]]]]; simpl in Hreq.
    + injection Hreq as <- _. by rewrite Hnone.
    + injection Hreq as <- <- _.
      apply Forall_cons in Hbefore as [[v1 ->] _]. simpl. by rewrite Hnone.
    + injection Hreq as <- <- <- _.
      apply Forall_cons in Hbefore as [[v1 ->] Hbefore].
      apply Forall_cons in Hbefore as [[v2 ->] _]. simpl. by rewrite Hnone.
    + injection Hreq as <- <- <- <- _.
      apply Forall_cons in Hbefore as [[v1 ->] Hbefore].
      apply Forall_cons in Hbefore as [[v2 ->] Hbefore].
      apply Forall_cons in Hbefore as [[v3 ->] _]. simpl. by rewrite Hnone.
    + injection Hreq as _ _ _ _ Hreq. by destruct before.
Qed.

(** ** Time values that are refused, and accepted *)

Lemma split_on_length (sep : ascii) (s : string) :
  length (split_on sep s) = S (count_char sep s).
Proof.
  induction s as [|d s IH]; simpl; [done|].
  destruct (Ascii.eqb d sep); simpl; [by rewrite IH|].
  destruct (split_on sep s) as [|piece pieces]; simpl in *; [done | lia].
Qed.

(** A time value with no colon, or with more than one (such as one
    with seconds), is refused, and so is one whose two parts read as
    integers of which one is out of range (an hour above 23, a minute
    above 59, a negative number); the error names the variable. *)
Theorem parse_time_env_refuses (env : gmap string string) (env_name default_value : string) :
  let raw_value := default default_value (env !! env_name) in
  let failure := Raise (ValueError (invalid_time_message env_name raw_value)) in
  (count_char ":" raw_value ≠ 1%nat →
   parse_time_env env env_name default_value = failure)
  ∧ (∀ hours minutes h m,
       raw_value = hours +:+ ":" +:+ minutes →
       has_char ":" hours = false → has_char ":" minutes = false →
       py_int hours = Ok h → py_int minutes = Ok m →
       ¬ (0 <= h <= 23 ∧ 0 <= m <= 59) →
       parse_time_env env env_name default_value = failure).
Proof.
  intros raw_value failure. unfold parse_time_env. fold raw_value. split.
  - intros Hcount. pose proof (split_on_length ":" raw_value) as Hlen.
    unfold parse_hours_minutes.
    destruct (split_on ":" raw_value) as [|a [|b [|c l]]]; simpl in *; try done.
    lia.
  - intros hours minutes h m -> Hh Hm Hih Him Hrange.
    unfold parse_hours_minutes.
    change (":" +:+ minutes) with (String ":" minutes).
    rewrite (split_on_first _ _ _ Hh), (split_on_absent _ _ Hm), Hih, Him.
    simpl. unfold py_time.
    destruct ((0 <=? h) && (h <=? 23)) eqn:Eh; [|done].
    destruct ((0 <=? m) && (m <=? 59)) eqn:Em; [|done].
    lia.
Qed.

Lemma plain_numeral_read_back (n : Z) :
  0 <= n < 60 → py_int (str_of_Z n) = Ok n ∧ has_char ":" (str_of_Z n) = false.
Proof.
  intros Hn.
  assert (reads_plain n = true) as H.
  { apply (forallb_below reads_plain 60); [by vm_compute | lia]. }
  unfold reads_plain in H. destruct (py_int (str_of_Z n)) as [k|]; [|done].
  apply andb_true_iff in H as [Hk Hc]. apply Z.eqb_eq in Hk. subst k.
  split; [done|]. by apply negb_true_iff.
Qed.

(** The two parts of a time value need no leading zero: "6:5" is read as
    06:05, as is every pair of plain numerals in range. *)
Theorem parse_time_env_plain_numerals (env : gmap string string)
    (env_name default_value : string) (h m : Z) :
  0 <= h < 24 → 0 <= m < 60 →
  default default_value (env !! env_name) = str_of_Z h +:+ ":" +:+ str_of_Z m →
  parse_time_env env env_name default_value = Ok (mk_time h m 0 0).
Proof.
  intros Hh Hm Hraw. unfold parse_time_env. rewrite Hraw.
  destruct (plain_numeral_read_back h) as [Hih Hch]; [lia|].
  destruct (plain_numeral_read_back m) as [Him Hcm]; [lia|].
  unfold parse_hours_minutes.
  change (":" +:+ str_of_Z m) with (String ":" (str_of_Z m)).
  rewrite (split_on_first _ _ _ Hch), (split_on_absent _ _ Hcm), Hih, Him.
  simpl. unfold py_time.
  replace ((0 <=? h) && (h <=? 23)) with true by lia.
  replace ((0 <=? m) && (m <=? 59)) with true by lia.
  done.
Qed.

(** ** The window and its reverse *)

(** At a time that is neither bound of the window, the window from
    [start] to [end] and the window from [end] to [start] never agree:
    each time of day is in exactly one of them. A window over midnight
    is the complement of the day window between the same bounds. *)
Theorem window_reversed (config : Config) (now : datetime) :
  valid_time (window_start config) →
  valid_time (window_end config) →
  valid_time (dt_time now) →
  time_of_day (dt_time now) ≠ time_of_day (window_start config) →
  time_of_day (dt_time now) ≠ time_of_day (window_end config) →
  time_of_day (window_start config) ≠ time_of_day (window_end config) →
  within_reply_window (swap_window config) now = negb (within_reply_window config now).
Proof.
  intros Hs He Ht Hts Hte Hse. unfold within_reply_window, swap_window. simpl.
  pose proof (time_le_time_of_day _ _ Hs He) as H1.
  pose proof (time_le_time_of_day _ _ He Hs) as H2.
  pose proof (time_le_time_of_day _ _ Hs Ht) as H3.
  pose proof (time_le_time_of_day _ _ Ht He) as H4.
  pose proof (time_le_time_of_day _ _ He Ht) as H5.
  pose proof (time_le_time_of_day _ _ Ht Hs) as H6.
  pose proof (time_ge_time_of_day _ _ Ht Hs) as H7.
  pose proof (time_ge_time_of_day _ _ Ht He) as H8.
  destruct (time_le (window_start config) (window_end config));
    destruct (time_le (window_end config) (window_start config));
    destruct (time_le (window_start config) (dt_time now));
    destruct (time_le (dt_time now) (window_end config));
    destruct (time_le (window_end config) (dt_time now));
    destruct (time_le (dt_time now) (window_start config));
    destruct (time_ge (dt_time now) (window_start config));
    destruct (time_ge (dt_time now) (window_end config));
    simpl; try reflexivity; exfalso;
    repeat match goal with
           | H : true = true ↔ _ |- _ => destruct H as [H _]; specialize (H eq_refl)
           | H : false = true ↔ _ |- _ =>
               let H' := fresh in
               assert (H' := H); destruct H as [_ H];
               clear H'
           end; lia.
Qed.

(** ** The endpoints, as the tests look at them *)

Lemma rev_app_acc (s acc : string) :
  String.rev_app s acc = String.rev_app s EmptyString +:+ acc.
Proof.
  revert acc. induction s as [|c s IH]; intros acc; simpl; [done|].
  rewrite (IH (String c acc)), (IH (String c EmptyString)).
  by rewrite append_assoc.
Qed.

Lemma rev_app_append (a b acc : string) :
  String.rev_app (a +:+ b) acc = String.rev_app b (String.rev_app a acc).
Proof. revert acc. induction a as [|c a IH]; intros acc; simpl; [done | apply IH]. Qed.

Lemma ends_with_append (before suffix : string) :
  ends_with suffix (before +:+ suffix) = true.
Proof.
  unfold ends_with, String.rev. rewrite rev_app_append.
  rewrite (rev_app_acc suffix (String.rev_app before EmptyString)).
  apply starts_with_app.
Qed.

Lemma rstrip_with_append (sp : ascii → bool) (a b : string) :
  rstrip_with sp b ≠ EmptyString →
  rstrip_with sp (a +:+ b) = a +:+ rstrip_with sp b.
Proof.
  intros Hb. induction a as [|c a IH]; simpl; [done|].
  rewrite IH. destruct (a +:+ rstrip_with sp b) eqn:E; [|done].
  destruct a; simpl in E; [done | discriminate].
Qed.

(** Whatever the base URL and the ticket key, the URL of each request of
    the ticketing client ends, once trailing slashes are dropped, with
    the path of its endpoint: the search, the comment, the assignee and
    the transitions of the ticket. *)
Theorem urls_end_with_endpoints (host : Host) (config : Config) (key id : json)
    (last_run : datetime) (text account : string) :
  url_ends_with (url (search_request config last_run)) "/rest/api/3/search/jql" = true
  ∧ url_ends_with (url (comment_request host config key text))
      ("/rest/api/3/issue/" +:+ py_str host key +:+ "/comment") = true
  ∧ url_ends_with (url (assign_request host config key account))
      ("/rest/api/3/issue/" +:+ py_str host key +:+ "/assignee") = true
  ∧ url_ends_with (url (list_transitions_request host config key))
      ("/rest/api/3/issue/" +:+ py_str host key +:+ "/transitions") = true
  ∧ url_ends_with (url (transition_request host config key id))
      ("/rest/api/3/issue/" +:+ py_str host key +:+ "/transitions") = true.
Proof.
  assert (∀ leaf, rstrip_with (Ascii.eqb "/") leaf = leaf → leaf ≠ EmptyString →
            url_ends_with (issue_url host config key leaf)
              ("/rest/api/3/issue/" +:+ py_str host key +:+ "/" +:+ leaf) = true)
    as Hissue.
  { intros leaf Hleaf Hne. unfold url_ends_with, issue_url.
    replace (jira_base_url config +:+ "/rest/api/3/issue/" +:+ py_str host key
             +:+ "/" +:+ leaf)
      with ((jira_base_url config +:+ "/rest/api/3/issue/" +:+ py_str host key +:+ "/")
            +:+ leaf) by (by rewrite !append_assoc).
    rewrite rstrip_with_append by (by rewrite Hleaf). rewrite Hleaf.
    rewrite !append_assoc. apply ends_with_append. }
  split; [|repeat split].
  - unfold url_ends_with. simpl.
    rewrite rstrip_with_append by done. apply ends_with_append.
  - apply (Hissue "comment"); done.
  - apply (Hissue "assignee"); done.
  - apply (Hissue "transitions"); done.
  - apply (Hissue "transitions"); done.
Qed.

Section Runs.

Variable host : Host.
Variable config : Config.

(** ** The watermark file *)

(** What [save_last_run] writes, [load_last_run] reads back, provided
    [fromisoformat] reads the output of [isoformat]; no other file is
    changed, and a path that cannot be written leaves the world as it
    was. *)
Theorem save_then_load (path : string) (timestamp : datetime) (w : World) :
  fromisoformat host (JStr (isoformat timestamp)) = Ok timestamp →
  match save_last_run host path timestamp w with
  | (Ok _, w1) =>
      load_last_run host path w1 = (Ok timestamp, w1)
      ∧ (∀ other, other ≠ path → files w1 !! other = files w !! other)
      ∧ sent w1 = sent w ∧ stdout w1 = stdout w
  | (Raise e, w1) => e = OSError path ∧ w1 = w ∧ writable host path = false
  end.
Proof.
  intros Hiso. unfold save_last_run.
  destruct (writable host path); [|done].
  split; [|split; [|done]].
  - unfold load_last_run, with_file. simpl. rewrite lookup_insert_eq.
    unfold catch, lift. simpl. by rewrite Hiso.
  - intros other Hne. unfold with_file. simpl. by rewrite lookup_insert_ne.
Qed.

(** ** Runs that process nothing *)

Lemma now_local_tick (w w' : World) (now : datetime) :
  now_local host config w = (Ok now, w') → w' = tick w.
Proof.
  unfold now_local, datetime_now, datetime_now_in.
  destruct (timezone config) as [zone|]; [destruct (_ && _)|]; by intros [= _ <-].
Qed.

(** Outside the reply window a run reads the clock once, says so and
    returns 0: it sends nothing, and neither reads nor writes the
    watermark. *)
Theorem main_outside_window (w w1 : World) (now : datetime) :
  load_config (environ w) = Ok config →
  now_local host config w = (Ok now, w1) →
  within_reply_window config now = false →
  main host w = (Ok 0, after_print (tick w) "Outside reply window. Exiting.")
  ∧ sent (snd (main host w)) = sent w
  ∧ files (snd (main host w)) = files w.
Proof.
  intros Hconfig Hnow Hwindow.
  assert (main host w = (Ok 0, after_print (tick w) "Outside reply window. Exiting."))
    as ->; [|done].
  unfold main. rewrite Hconfig. unfold run, bind. rewrite Hnow, Hwindow. simpl.
  by rewrite (now_local_tick _ _ _ Hnow).
Qed.

Lemma search_trace (last_run : datetime) (w : World) :
  ∃ res, jira_search_issues host config last_run w
         = (res, after_requests w [search_request config last_run]).
Proof.
  unfold jira_search_issues, bind.
  destruct (send_trace host (search_request config last_run) w) as [[resp|e] ->]; [|eauto].
  destruct (raise_for_status_world resp
              (after_requests w [search_request config last_run]))
    as [[[]|e] ->]; [|eauto].
  unfold response_json, lift. destruct (snd resp); unfold ret, raise; eauto.
Qed.

(** When the server answers the search with a success status and a JSON
    object that has no "issues" entry, or an empty list of issues, the
    run sends nothing else, says that nothing matched, overwrites the
    watermark with the time of the run and returns 0. *)
Theorem main_no_candidates (w w1 w2 : World) (now last_run : datetime)
    (status : Z) (fields : list (string * json)) :
  load_config (environ w) = Ok config →
  now_local host config w = (Ok now, w1) →
  within_reply_window config now = true →
  load_last_run host (last_run_path config) w1 = (Ok last_run, w2) →
  server host (sent w2) (search_request config last_run)
  = Response status (Some (JObj fields)) →
  (400 <=? status) && (status <? 600) = false →
  assoc fields "issues" = None ∨ assoc fields "issues" = Some (JArr []) →
  writable host (last_run_path config) = true →
  main host w
  = (Ok 0,
     with_file (last_run_path config) (Contents (Some (watermark now)))
       (after_print (after_requests w2 [search_request config last_run])
          "No matching issues found.")).
Proof.
  intros Hconfig Hnow Hwindow Hload Hserver Hstatus Hissues Hwritable.
  unfold main. rewrite Hconfig. unfold run, bind. rewrite Hnow, Hwindow. simpl.
  rewrite Hload.
  assert (jira_search_issues host config last_run w2
          = (Ok (JArr []), after_requests w2 [search_request config last_run])) as ->.
  { unfold jira_search_issues, bind, send. rewrite Hserver.
    unfold raise_for_status. simpl. rewrite Hstatus. unfold ret, response_json, lift.
    simpl. by destruct Hissues as [-> | ->]. }
  simpl. unfold print, save_last_run. simpl. by rewrite Hwritable.
Qed.
(** ** What a run returns and where its search starts *)

(** The exit status, when [main] returns one, is 1 exactly when the
    configuration did not load, and then the run did nothing but print
    the error; otherwise it is 0. *)
Theorem main_exit_status (w w' : World) (n : Z) :
  main host w = (Ok n, w') →
  (n = 1 ∧ ∃ message, load_config (environ w) = Raise (ValueError message)
                      ∧ w' = after_print w message)
  ∨ (n = 0 ∧ ∃ loaded, load_config (environ w) = Ok loaded).
Proof.
  unfold main. destruct (load_config (environ w)) as [loaded|e] eqn:E.
  - intros H. right. split; [|eauto]. clear E.
    revert H. unfold run.
    intros (now & w1 & _ & H)%bind_Ok_inv.
    destruct (within_reply_window loaded now); simpl in H.
    + apply bind_Ok_inv in H as (last_run & w2 & _ & H).
      apply bind_Ok_inv in H as (issues & w3 & _ & H).
      destruct (truthy issues); simpl in H.
      * apply bind_Ok_inv in H as (candidates & w4 & _ & H).
        apply bind_Ok_inv in H as (processed & w5 & _ & H).
        apply bind_Ok_inv in H as (u & w6 & _ & H).
        apply bind_Ok_inv in H as (u' & w7 & _ & H).
        unfold ret in H. by injection H as <- _.
      * apply bind_Ok_inv in H as (u & w4 & _ & H).
        apply bind_Ok_inv in H as (u' & w5 & _ & H).
        unfold ret in H. by injection H as <- _.
    + apply bind_Ok_inv in H as (u & w2 & _ & H).
      unfold ret in H. by injection H as <- _.
  - destruct e; try done. unfold bind, print, ret. intros [= <- <-]. left. eauto.
Qed.

Lemma load_last_run_sent (path : string) (w w' : World) (r : result datetime) :
  load_last_run host path w = (r, w') → sent w' = sent w.
Proof.
  assert (∀ r', a_day_ago host w = (r', w') → sent w' = sent w) as Hago.
  { unfold a_day_ago, bind, datetime_now, lift. by intros r' [= _ <-]. }
  unfold load_last_run. destruct (files w !! path) as [node|]; [|apply Hago].
  unfold catch, lift. destruct (read_last_run host path node); [by intros [= _ <-]|].
  apply Hago.
Qed.

Lemma run_search_first (w w1 w2 : World) (now last_run : datetime) :
  now_local host config w = (Ok now, w1) →
  within_reply_window config now = true →
  load_last_run host (last_run_path config) w1 = (Ok last_run, w2) →
  ∃ rest, sent (snd (run host config w))
          = sent w ++ search_request config last_run :: rest.
Proof.
  intros Hnow Hwindow Hload.
  assert (sent w2 = sent w) as Hsent.
  { rewrite (load_last_run_sent _ _ _ _ Hload).
    by rewrite (now_local_tick _ _ _ Hnow). }
  unfold run, bind. rewrite Hnow, Hwindow. simpl. rewrite Hload.
  destruct (search_trace last_run w2) as [[issues|e] ->]; simpl;
    [|exists []; by rewrite Hsent].
  destruct (truthy issues); simpl.
  - destruct (py_iter issues) as [candidates|e]; simpl;
      [|exists []; by rewrite Hsent].
    destruct (process_issues host config candidates (jira_assignee_account_id config)
                (after_requests w2 [search_request config last_run]))
      as [[n|e] w4] eqn:E;
      destruct (only_requests_process host config _ _ _ _ _ _ E) as [trace ->];
      rewrite after_requests_app; simpl.
    + unfold save_last_run. destruct (writable host (last_run_path config)); simpl;
        exists trace; by rewrite Hsent.
    + exists trace. by rewrite Hsent.
  - unfold save_last_run. destruct (writable host (last_run_path config)); simpl;
      exists []; by rewrite Hsent.
Qed.

(** A run inside the window starts with the search, and the search asks
    for the tickets updated since the stored watermark: the timestamp a
    former run saved is the lower bound of the next one. *)
Theorem main_searches_from_watermark (w w1 : World) (now stored : datetime) :
  load_config (environ w) = Ok config →
  now_local host config w = (Ok now, w1) →
  within_reply_window config now = true →
  files w !! last_run_path config = Some (Contents (Some (watermark stored))) →
  fromisoformat host (JStr (isoformat stored)) = Ok stored →
  ∃ rest, sent (snd (main host w))
          = sent w ++ search_request config stored :: rest.
Proof.
  intros Hconfig Hnow Hwindow Hfile Hiso.
  unfold main. rewrite Hconfig.
  apply (run_search_first w w1 w1 now stored Hnow Hwindow).
  rewrite (now_local_tick _ _ _ Hnow).
  unfold load_last_run. simpl. rewrite Hfile. unfold catch, lift. simpl. by rewrite Hiso.
Qed.

(** Without a watermark file the search starts one day before the
    reading of the clock that follows the reading of the run's time. *)
Theorem main_searches_from_yesterday (w w1 : World) (now yesterday : datetime) :
  load_config (environ w) = Ok config →
  now_local host config w = (Ok now, w1) →
  within_reply_window config now = true →
  files w !! last_run_path config = None →
  minus_one_day (clock host (S (ticks w))) = Ok yesterday →
  ∃ rest, sent (snd (main host w))
          = sent w ++ search_request config yesterday :: rest.
Proof.
  intros Hconfig Hnow Hwindow Hfile Hday.
  unfold main. rewrite Hconfig.
  apply (run_search_first w w1 (tick w1) now yesterday Hnow Hwindow).
  rewrite (now_local_tick _ _ _ Hnow).
  unfold load_last_run. simpl. rewrite Hfile.
  unfold a_day_ago, bind, datetime_now, lift. simpl. by rewrite Hday.
Qed.

(** ** Edges of a transition *)

(** A listing without a "transitions" entry is an empty listing: every
    transition name is then reported as not found, after the one GET. *)
Theorem transition_of_empty_listing (key : json) (transition_name : string)
    (w : World) (status : Z) (fields : list (string * json)) :
  server host (sent w) (list_transitions_request host config key)
  = Response status (Some (JObj fields)) →
  (400 <=? status) && (status <? 600) = false →
  assoc fields "transitions" = None →
  jira_transition_issue host config key transition_name w
  = (Raise (transition_not_found host transition_name key),
     after_requests w [list_transitions_request host config key]).
Proof.
  intros Hserver Hstatus Hnone.
  unfold jira_transition_issue, jira_list_transitions, bind, send. rewrite Hserver.
  unfold raise_for_status. simpl. rewrite Hstatus. unfold ret, response_json, lift.
  simpl. by rewrite Hnone.
Qed.

(** When the first transition of the wanted name carries no "id", the
    call raises [KeyError] for "id" after the listing and posts
    nothing. *)
Theorem transition_without_id (key : json) (transition_name : string)
    (w w1 : World) (transitions : json) (before after : list json)
    (entries : list (string * json)) :
  jira_list_transitions host config key w = (Ok transitions, w1) →
  py_iter transitions = Ok (before ++ JObj entries :: after) →
  Forall (other_name transition_name) before →
  assoc entries "name" = Some (JStr transition_name) →
  assoc entries "id" = None →
  jira_transition_issue host config key transition_name w
  = (Raise (KeyError "id"),
     after_requests w [list_transitions_request host config key]).
Proof.
  intros Hlist Hiter Hbefore Hname Hid.
  destruct (list_transitions_trace host config key w) as [res Htrace].
  rewrite Htrace in Hlist. injection Hlist as -> <-.
  unfold jira_transition_issue, bind. rewrite Htrace. unfold lift at 1 2.
  rewrite Hiter.
  rewrite (first_named_found before after (JObj entries) transition_name Hbefore);
    [|simpl; by rewrite Hname].
  assert (truthy (JObj entries) = true) as ->.
  { destruct entries; [done | done]. }
  unfold lift. simpl. by rewrite Hid.
Qed.

(** ** The generated reply *)


(** With a generation key, an answer with an error status ends the
    generation with that status as the error, after the one request. *)
Theorem generate_ai_reply_refused (api_key : string) (issue fields summary description : json)
    (w : World) (status : Z) (payload : option json) :
  openai_api_key config = Some api_key →
  api_key ≠ EmptyString →
  py_get issue "fields" (JObj []) = Ok fields →
  py_get fields "summary" (JStr EmptyString) = Ok summary →
  py_get fields "description" (JStr EmptyString) = Ok description →
  server host (sent w)
    (completion_request config api_key (prompt_text host summary description))
  = Response status payload →
  400 <= status < 600 →
  generate_ai_reply host config issue w
  = (Raise (HTTPError status),
     after_requests w
       [completion_request config api_key (prompt_text host summary description)]).
Proof.
  intros Hkey Hne Hfields Hsummary Hdescription Hserver Hstatus.
  unfold generate_ai_reply. rewrite Hkey.
  apply String.eqb_neq in Hne. rewrite Hne.
  unfold bind, lift. rewrite Hfields, Hsummary, Hdescription.
  unfold send. rewrite Hserver. unfold raise_for_status. simpl.
  replace ((400 <=? status) && (status <? 600)) with true by lia. done.
Qed.

(** ** Batches *)

Lemma bind_assoc {A B C} (m : M A) (f : A → M B) (g : B → M C) (w : World) :
  bind (bind m f) g w = bind m (λ a, bind (f a) g) w.
Proof. unfold bind. by destruct (m w) as [[a|e] w1]. Qed.

Lemma process_from_app (first rest : list json) (account : string) (count : Z)
    (w : World) :
  process_from host config (first ++ rest) account count w
  = bind (process_from host config first account count)
      (λ counted, process_from host config rest account counted) w.
Proof.
  revert count w. induction first as [|issue first IH]; intros count w; simpl.
  - done.
  - rewrite bind_assoc. apply bind_ext. intros key w1.
    destruct (truthy key); simpl; [|apply IH].
    repeat (rewrite bind_assoc; apply bind_ext; intros ? ?). apply IH.
Qed.

(** A batch is processed ticket after ticket: when the first part of the
    list ends with an error, the whole list ends with that error in the
    same world, so the tickets behind the failure are not touched; when
    it returns a count, the rest is processed from there with that
    count. *)
Theorem process_issues_in_sequence (first rest : list json) (account : string)
    (w : World) :
  match process_issues host config first account w with
  | (Raise e, w') =>
      process_issues host config (first ++ rest) account w = (Raise e, w')
  | (Ok counted, w') =>
      process_issues host config (first ++ rest) account w
      = process_from host config rest account counted w'
  end.
Proof.
  unfold process_issues. rewrite process_from_app. unfold bind.
  by destruct (process_from host config first account 0 w) as [[counted|e] w'].
Qed.

(** ** What the requests carry *)

Lemma sends_only_pure {A} (P : Request → Prop) (m : M A) :
  (∀ w, ∃ r, m w = (r, w)) → sends_only P m.
Proof.
  intros Hm w r w' H. destruct (Hm w) as [r' Hr]. rewrite Hr in H.
  injection H as _ <-. exists []. by rewrite after_requests_nil.
Qed.

Lemma sends_only_bind {A B} (P : Request → Prop) (m : M A) (k : A → M B) :
  sends_only P m → (∀ a, sends_only P (k a)) → sends_only P (bind m k).
Proof.
  intros Hm Hk w r w'. unfold bind.
  destruct (m w) as [[a|e] w1] eqn:E; destruct (Hm _ _ _ E) as (t1 & -> & H1).
  - intros (t2 & -> & H2)%Hk. exists (t1 ++ t2).
    split; [by rewrite after_requests_app | by apply Forall_app].
  - intros [= _ <-]. eauto.
Qed.

Lemma sends_only_send (P : Request → Prop) (rq : Request) :
  P rq → sends_only P (send host rq).
Proof.
  intros HP w r w'. destruct (send_trace host rq w) as [res ->].
  intros [= _ <-]. exists [rq]. split; [done | by constructor].
Qed.

Lemma sends_only_lift {A} (P : Request → Prop) (x : result A) : sends_only P (lift x).
Proof. apply sends_only_pure. intros w. by exists x. Qed.

Lemma sends_only_ret {A} (P : Request → Prop) (a : A) : sends_only P (ret a).
Proof. apply sends_only_pure. intros w. by exists (Ok a). Qed.

Lemma sends_only_raise {A} (P : Request → Prop) (e : exn) : sends_only P (@raise A e).
Proof. apply sends_only_pure. intros w. by exists (Raise e). Qed.

Lemma sends_only_raise_for_status (P : Request → Prop) (response : Z * option json) :
  sends_only P (raise_for_status response).
Proof.
  apply sends_only_pure. intros w. apply raise_for_status_world.
Qed.

Lemma sends_only_response_json (P : Request → Prop) (response : Z * option json) :
  sends_only P (response_json response).
Proof.
  unfold response_json.
  destruct (snd response); [apply sends_only_ret | apply sends_only_raise].
Qed.

Lemma issue_url_ticketing (key : json) (leaf : string) :
  starts_with (jira_base_url config) (issue_url host config key leaf) = true.
Proof. unfold issue_url. apply starts_with_app. Qed.

Create HintDb carry.
#[local] Hint Resolve sends_only_lift sends_only_ret sends_only_raise
  sends_only_raise_for_status sends_only_response_json : carry.
#[local] Hint Extern 2 (sends_only _ (bind _ _)) =>
  apply sends_only_bind; [|intros ?] : carry.

Lemma ticketing_sends (rq : Request) :
  ticketing_request config rq → sends_only (carried config) (send host rq).
Proof. intros H. apply sends_only_send. by left. Qed.

Lemma sends_only_comment (key : json) (text : string) :
  sends_only (carried config) (jira_add_comment host config key text).
Proof.
  unfold jira_add_comment. apply sends_only_bind; [|auto with carry].
  apply ticketing_sends. repeat split. apply issue_url_ticketing.
Qed.

Lemma sends_only_assign (key : json) (account : string) :
  sends_only (carried config) (jira_assign_issue host config key account).
Proof.
  unfold jira_assign_issue. apply sends_only_bind; [|auto with carry].
  apply ticketing_sends. repeat split. apply issue_url_ticketing.
Qed.

Lemma sends_only_transition (key : json) (transition_name : string) :
  sends_only (carried config) (jira_transition_issue host config key transition_name).
Proof.
  unfold jira_transition_issue, jira_list_transitions.
  apply sends_only_bind.
  { apply sends_only_bind; [|auto 10 with carry].
    apply ticketing_sends. repeat split. apply issue_url_ticketing. }
  intros transitions. apply sends_only_bind; [auto with carry|]. intros items.
  apply sends_only_bind; [auto with carry|]. intros [item|]; [|auto with carry].
  destruct (truthy item); [|auto with carry].
  apply sends_only_bind; [auto with carry|]. intros id.
  apply sends_only_bind; [|auto with carry].
  apply ticketing_sends. repeat split. apply issue_url_ticketing.
Qed.

Lemma sends_only_generate (issue : json) :
  sends_only (carried config) (generate_ai_reply host config issue).
Proof.
  unfold generate_ai_reply.
  destruct (openai_api_key config) as [api_key|] eqn:Hkey; [|auto with carry].
  destruct (String.eqb api_key EmptyString); [auto with carry|].
  do 4 (apply sends_only_bind; [auto with carry | intros ?]).
  apply sends_only_bind; [|auto 10 with carry].
  apply sends_only_send. right. repeat split. by exists api_key.
Qed.

Lemma sends_only_search (last_run : datetime) :
  sends_only (carried config) (jira_search_issues host config last_run).
Proof.
  unfold jira_search_issues. apply sends_only_bind; [|auto 10 with carry].
  apply ticketing_sends. repeat split. apply starts_with_app.
Qed.

Lemma sends_only_process (issues : list json) (account : string) (count : Z) :
  sends_only (carried config) (process_from host config issues account count).
Proof.
  revert count. induction issues as [|issue rest IH]; intros count; simpl.
  - apply sends_only_ret.
  - apply sends_only_bind; [auto with carry|]. intros key.
    destruct (truthy key); simpl; [|apply IH].
    apply sends_only_bind; [apply sends_only_generate|]. intros reply.
    apply sends_only_bind; [apply sends_only_comment|]. intros _.
    apply sends_only_bind; [apply sends_only_assign|]. intros _.
    do 3 (apply sends_only_bind; [apply sends_only_transition|]; intros _).
    apply IH.
Qed.

(** Whatever the tickets and whatever the server answers, a batch does
    nothing but send requests, and each of them either goes to the
    ticketing system, under the configured base URL with the configured
    credentials, or goes to the text generation endpoint with the
    generation key and without those credentials; each has a timeout of
    30 seconds. *)
Theorem process_issues_requests (issues : list json) (account : string)
    (w w' : World) (res : result Z) :
  process_issues host config issues account w = (res, w') →
  ∃ trace, w' = after_requests w trace ∧ Forall (carried config) trace.
Proof. apply sends_only_process. Qed.

(** Every request of a whole run is such a request: with the
    configuration loaded from the environment, what [main] adds to the
    log of requests goes to the ticketing system with the configured
    credentials or to the generation endpoint with the generation key. *)
Theorem main_requests (w : World) :
  load_config (environ w) = Ok config →
  ∃ trace,
    sent (snd (main host w)) = sent w ++ trace ∧ Forall (carried config) trace.
Proof.
  intros Hconfig. unfold main. rewrite Hconfig. unfold run, bind.
  assert (∃ trace, sent w = sent w ++ trace ∧ Forall (carried config) trace) as Hnil.
  { exists []. by rewrite app_nil_r. }
  destruct (now_local host config w) as [[now|e] w1] eqn:Hnow.
  2:{ assert (sent w1 = sent w) as <-; [|by exists []; rewrite app_nil_r].
      revert Hnow. unfold now_local, datetime_now, datetime_now_in.
      destruct (timezone config) as [zone|]; [destruct (_ && _)|]; by intros [= _ <-]. }
  apply now_local_tick in Hnow as ->.
  destruct (within_reply_window config now); simpl; [|done].
  destruct (load_last_run host (last_run_path config) (tick w))
    as [[last_run|e] w2] eqn:Hload;
    pose proof (load_last_run_sent _ _ _ _ Hload) as Hsent; simpl in Hsent;
    [|simpl; by rewrite Hsent].
  destruct (jira_search_issues host config last_run w2) as [[issues|e] w3] eqn:Hsearch;
    destruct (sends_only_search last_run _ _ _ Hsearch) as (t1 & -> & Ht1);
    [|simpl; rewrite Hsent; eauto].
  destruct (truthy issues); simpl.
  - destruct (py_iter issues) as [candidates|e]; simpl; [|rewrite Hsent; eauto].
    destruct (process_issues host config candidates (jira_assignee_account_id config)
                (after_requests w2 t1)) as [[n|e] w4] eqn:Hbatch;
      destruct (sends_only_process _ _ _ _ _ _ Hbatch) as (t2 & -> & Ht2);
      rewrite after_requests_app.
    + unfold save_last_run. destruct (writable host (last_run_path config)); simpl;
        rewrite Hsent; exists (t1 ++ t2); split; try done; by apply Forall_app.
    + simpl. rewrite Hsent. exists (t1 ++ t2). split; [done | by apply Forall_app].
  - unfold save_last_run. destruct (writable host (last_run_path config)); simpl;
      rewrite Hsent; eauto.
Qed.


(** ** Runs that fail outside the batch *)

(** A watermark that cannot be written is an error of the run: after a
    completed batch [main] ends with [OSError] in the world the batch
    left, without the line that reports the count. *)
Theorem main_unwritable_watermark (w w1 w2 w3 : World) (now last_run : datetime)
    (issues : json) (candidates : list json) (n : Z) (w4 : World) :
  load_config (environ w) = Ok config →
  now_local host config w = (Ok now, w1) →
  within_reply_window config now = true →
  load_last_run host (last_run_path config) w1 = (Ok last_run, w2) →
  jira_search_issues host config last_run w2 = (Ok issues, w3) →
  truthy issues = true →
  py_iter issues = Ok candidates →
  process_issues host config candidates (jira_assignee_account_id config) w3
  = (Ok n, w4) →
  writable host (last_run_path config) = false →
  main host w = (Raise (OSError (last_run_path config)), w4).
Proof.
  intros Hconfig Hnow Hwindow Hload Hsearch Htruthy Hiter Hbatch Hw.
  unfold main. rewrite Hconfig. unfold run, bind. rewrite Hnow, Hwindow. simpl.
  rewrite Hload, Hsearch, Htruthy. simpl. rewrite Hiter, Hbatch.
  unfold save_last_run. by rewrite Hw.
Qed.

(** When the search is answered with an error status the run ends with
    that error: nothing else is sent and the watermark is neither
    written nor moved. *)
Theorem main_search_refused (w w1 w2 : World) (now last_run : datetime)
    (status : Z) (payload : option json) :
  load_config (environ w) = Ok config →
  now_local host config w = (Ok now, w1) →
  within_reply_window config now = true →
  load_last_run host (last_run_path config) w1 = (Ok last_run, w2) →
  server host (sent w2) (search_request config last_run) = Response status payload →
  400 <= status < 600 →
  main host w
  = (Raise (HTTPError status), after_requests w2 [search_request config last_run])
  ∧ files (after_requests w2 [search_request config last_run]) = files w.
Proof.
  intros Hconfig Hnow Hwindow Hload Hserver Hstatus. split.
  - unfold main. rewrite Hconfig. unfold run, bind. rewrite Hnow, Hwindow. simpl.
    rewrite Hload. unfold jira_search_issues, bind, send. rewrite Hserver.
    unfold raise_for_status. simpl.
    replace ((400 <=? status) && (status <? 600)) with true by lia. done.
  - simpl. rewrite (load_last_run_files host _ _ _ _ Hload).
    by rewrite (now_local_tick _ _ _ Hnow).
Qed.


(** The count of a completed batch is the number of its tickets that
    have a key; the run reports that number. *)
Theorem process_issues_count (issues : list json) (account : string) (n : Z)
    (w w' : World) :
  process_issues host config issues account w = (Ok n, w') →
  n = Z.of_nat (length (List.filter has_key issues)).
Proof.
  unfold process_issues. intros H. by apply process_from_count in H.
Qed.

End Runs.

(** * Further instances on the bench *)

(** [save_then_load] on the bench. *)
Lemma save_then_load_bench :
  let host := lab_host (constant_server NoReply) bench_now true in
  load_last_run host "last_run.json"
    (snd (save_last_run host "last_run.json" bench_now bench_world))
  = (Ok bench_now, snd (save_last_run host "last_run.json" bench_now bench_world)).
Proof.
  pose proof (save_then_load (lab_host (constant_server NoReply) bench_now true)
                "last_run.json" bench_now bench_world) as H.
  simpl in H. apply H. reflexivity.
Defined.

(** [main_outside_window] on the bench. *)
Lemma main_outside_window_bench :
  main (lab_host (constant_server NoReply) late_evening true) bench_world
  = (Ok 0, after_print (tick bench_world) "Outside reply window. Exiting.").
Proof.
  destruct (main_outside_window (lab_host (constant_server NoReply) late_evening true)
              bench_config bench_world (tick bench_world) late_evening) as [H _];
    [vm_compute; reflexivity ..|exact H].
Defined.

(** [main_no_candidates] on the bench. *)
Lemma main_no_candidates_bench :
  let host := lab_host (constant_server (Response 200 (Some (JObj [])))) bench_now true in
  let yesterday := mk_datetime 2024 1 1 10 0 0 0 None in
  main host bench_world
  = (Ok 0,
     with_file "last_run.json" (Contents (Some (watermark bench_now)))
       (after_print
          (after_requests (tick (tick bench_world))
             [search_request bench_config yesterday])
          "No matching issues found.")).
Proof.
  apply (main_no_candidates
           (lab_host (constant_server (Response 200 (Some (JObj [])))) bench_now true)
           bench_config bench_world (tick bench_world) (tick (tick bench_world))
           bench_now (mk_datetime 2024 1 1 10 0 0 0 None) 200 []);
    try (vm_compute; reflexivity).
  by left.
Defined.

(** [main_exit_status] on the bench. *)
Lemma main_exit_status_bench :
  (0 = 1 ∧ ∃ message, load_config (environ bench_world) = Raise (ValueError message)
                      ∧ snd (main (bench_host 201) bench_world)
                        = after_print bench_world message)
  ∨ (0 = 0 ∧ ∃ loaded, load_config (environ bench_world) = Ok loaded).
Proof.
  apply (main_exit_status (bench_host 201) bench_world
           (snd (main (bench_host 201) bench_world)) 0).
  vm_compute. reflexivity.
Defined.

(** [main_searches_from_watermark] on the bench. *)
Lemma main_searches_from_watermark_bench :
  ∃ rest,
    sent (snd (main (lab_host (bench_server 201) bench_now true) stamped_world))
    = sent stamped_world ++ search_request bench_config bench_now :: rest.
Proof.
  apply (main_searches_from_watermark (lab_host (bench_server 201) bench_now true)
           bench_config stamped_world (tick stamped_world) bench_now bench_now);
    vm_compute; reflexivity.
Defined.

(** [main_searches_from_yesterday] on the bench. *)
Lemma main_searches_from_yesterday_bench :
  ∃ rest,
    sent (snd (main (bench_host 201) bench_world))
    = sent bench_world
      ++ search_request bench_config (mk_datetime 2024 1 1 10 0 0 0 None) :: rest.
Proof.
  apply (main_searches_from_yesterday (bench_host 201) bench_config bench_world
           (tick bench_world) bench_now (mk_datetime 2024 1 1 10 0 0 0 None));
    vm_compute; reflexivity.
Defined.

(** [transition_of_empty_listing] on the bench. *)
Lemma transition_of_empty_listing_bench :
  let host := lab_host (constant_server (Response 200 (Some (JObj [])))) bench_now true in
  jira_transition_issue host bench_config (JStr "TS-1") "To-Do" bench_world
  = (Raise (ValueError "Transition 'To-Do' not found for TS-1"),
     after_requests bench_world [list_transitions_request host bench_config (JStr "TS-1")]).
Proof.
  apply (transition_of_empty_listing
           (lab_host (constant_server (Response 200 (Some (JObj [])))) bench_now true)
           bench_config (JStr "TS-1") "To-Do" bench_world 200 []);
    reflexivity.
Defined.

(** [transition_without_id] on the bench. *)
Lemma transition_without_id_bench :
  let host := lab_host (constant_server (Response 200 (Some listing_without_id)))
                bench_now true in
  jira_transition_issue host bench_config (JStr "TS-1") "Iprogress" bench_world
  = (Raise (KeyError "id"),
     after_requests bench_world [list_transitions_request host bench_config (JStr "TS-1")]).
Proof.
  apply (transition_without_id
           (lab_host (constant_server (Response 200 (Some listing_without_id)))
              bench_now true)
           bench_config (JStr "TS-1") "Iprogress" bench_world
           (after_requests bench_world
              [list_transitions_request
                 (lab_host (constant_server (Response 200 (Some listing_without_id)))
                    bench_now true) bench_config (JStr "TS-1")])
           (JArr [JObj [("name", JStr "Iprogress")]]) [] []
           [("name", JStr "Iprogress")]);
    try reflexivity.
  constructor.
Defined.


(** [generate_ai_reply_refused] on the bench. *)
Lemma generate_ai_reply_refused_bench :
  let host := lab_host (constant_server (Response 429 None)) bench_now true in
  generate_ai_reply host keyed_config bench_issue bench_world
  = (Raise (HTTPError 429),
     after_requests bench_world
       [completion_request keyed_config "key"
          (prompt_text host (JStr "Test ticket") (JStr EmptyString))]).
Proof.
  apply (generate_ai_reply_refused
           (lab_host (constant_server (Response 429 None)) bench_now true)
           keyed_config "key" bench_issue
           (JObj [("summary", JStr "Test ticket")]) (JStr "Test ticket") (JStr EmptyString)
           bench_world 429 None);
    try reflexivity; [discriminate | lia].
Defined.
(** [process_issues_requests] on the bench. *)
Lemma process_issues_requests_bench :
  ∃ trace,
    snd (process_issues (bench_host 201) bench_config [bench_issue] "712020:abc" bench_world)
    = after_requests bench_world trace
    ∧ Forall (carried bench_config) trace.
Proof.
  apply (process_issues_requests (bench_host 201) bench_config [bench_issue]
           "712020:abc" bench_world
           (snd (process_issues (bench_host 201) bench_config [bench_issue]
                   "712020:abc" bench_world))
           (Ok 1)).
  vm_compute. reflexivity.
Defined.

(** [main_requests] on the bench. *)
Lemma main_requests_bench :
  ∃ trace,
    sent (snd (main (bench_host 201) bench_world)) = sent bench_world ++ trace
    ∧ Forall (carried bench_config) trace.
Proof.
  apply (main_requests (bench_host 201) bench_config bench_world).
  vm_compute. reflexivity.
Defined.

(** [load_config_first_error] on the bench. *)
Lemma load_config_first_error_bench :
  load_config no_email_env
  = Raise (ValueError "Missing required environment variable: JIRA_EMAIL")
  ∧ load_config (delete "JIRA_API_TOKEN" bad_window_env)
    = Raise (ValueError "Invalid time value for WINDOW_START: not-a-time").
Proof.
  split.
  - destruct (load_config_first_error no_email_env) as (_ & _ & H).
    apply (H (mk_time 5 30 0 0) (mk_time 17 30 0 0) ["JIRA_BASE_URL"] "JIRA_EMAIL"
             ["JIRA_API_TOKEN"; "JIRA_ASSIGNEE_ACCOUNT_ID"]); try reflexivity.
    repeat constructor. by eexists.
  - destruct (load_config_first_error (delete "JIRA_API_TOKEN" bad_window_env))
      as (H & _).
    apply H. reflexivity.
Defined.

(** [parse_time_env_refuses] on the bench. *)
Lemma parse_time_env_refuses_bench :
  parse_time_env (<["WINDOW_END" := "17:30:00"]> ∅) "WINDOW_END" "17:30"
  = Raise (ValueError "Invalid time value for WINDOW_END: 17:30:00")
  ∧ parse_time_env (<["WINDOW_END" := "24:00"]> ∅) "WINDOW_END" "17:30"
    = Raise (ValueError "Invalid time value for WINDOW_END: 24:00").
Proof.
  split.
  - destruct (parse_time_env_refuses (<["WINDOW_END" := "17:30:00"]> ∅)
                "WINDOW_END" "17:30") as [H _].
    apply H. vm_compute. discriminate.
  - destruct (parse_time_env_refuses (<["WINDOW_END" := "24:00"]> ∅)
                "WINDOW_END" "17:30") as [_ H].
    apply (H "24" "00" 24 0); try reflexivity. lia.
Defined.

(** [parse_time_env_plain_numerals] on the bench. *)
Lemma parse_time_env_plain_numerals_bench :
  parse_time_env (<["WINDOW_START" := "6:5"]> ∅) "WINDOW_START" "05:30"
  = Ok (mk_time 6 5 0 0).
Proof.
  apply (parse_time_env_plain_numerals (<["WINDOW_START" := "6:5"]> ∅)
           "WINDOW_START" "05:30" 6 5); [lia | lia | reflexivity].
Defined.

(** [window_reversed] on the bench. *)
Lemma window_reversed_bench :
  within_reply_window (swap_window overnight_config) late_evening
  = negb (within_reply_window overnight_config late_evening).
Proof.
  apply (window_reversed overnight_config late_evening);
    try (unfold valid_time; simpl; lia); vm_compute; discriminate.
Defined.

(** [process_one_ticket_order] on the bench. *)
Lemma process_one_ticket_order_bench :
  ∃ id1 id2 id3 trace,
    let host := bench_host 500 in
    let key := JStr "TS-1" in
    let c := comment_request host bench_config key (default_reply_text "Test ticket") in
    let a := assign_request host bench_config key "712020:abc" in
    let l := list_transitions_request host bench_config key in
    let t := transition_request host bench_config key in
    snd (process_issues host bench_config [bench_issue] "712020:abc" bench_world)
    = after_requests bench_world trace
    ∧ trace `prefix_of` [c; a; l; t id1; l; t id2; l; t id3]
    ∧ (fst (process_issues host bench_config [bench_issue] "712020:abc" bench_world) = Ok 1
       ∨ ∃ e, fst (process_issues host bench_config [bench_issue] "712020:abc" bench_world)
              = Raise e)
    ∧ (fst (process_issues host bench_config [bench_issue] "712020:abc" bench_world) = Ok 1
       → trace = [c; a; l; t id1; l; t id2; l; t id3]).
Proof.
  apply (process_one_ticket_order (bench_host 500) bench_config bench_issue (JStr "TS-1")
           "712020:abc" bench_world
           (snd (process_issues (bench_host 500) bench_config [bench_issue]
                   "712020:abc" bench_world))
           (fst (process_issues (bench_host 500) bench_config [bench_issue]
                   "712020:abc" bench_world))
           (default_reply_text "Test ticket") bench_world);
    vm_compute; reflexivity.
Defined.

(** [process_issues_count] on the bench. *)
Lemma process_issues_count_bench :
  1 = Z.of_nat (length (List.filter has_key [anonymous_issue; bench_issue])).
Proof.
  apply (process_issues_count (bench_host 201) bench_config
           [anonymous_issue; bench_issue] "712020:abc" 1 bench_world
           (snd (process_issues (bench_host 201) bench_config
                   [anonymous_issue; bench_issue] "712020:abc" bench_world))).
  vm_compute. reflexivity.
Defined.

(** [main_unwritable_watermark] on the bench. *)
Lemma main_unwritable_watermark_bench :
  let host := lab_host (bench_server 201) bench_now false in
  let yesterday := mk_datetime 2024 1 1 10 0 0 0 None in
  main host bench_world
  = (Raise (OSError "last_run.json"),
     snd (process_issues host bench_config [bench_issue] "712020:abc"
            (after_requests (tick (tick bench_world))
               [search_request bench_config yesterday]))).
Proof.
  apply (main_unwritable_watermark (lab_host (bench_server 201) bench_now false)
           bench_config bench_world (tick bench_world) (tick (tick bench_world))
           (after_requests (tick (tick bench_world))
              [search_request bench_config (mk_datetime 2024 1 1 10 0 0 0 None)])
           bench_now (mk_datetime 2024 1 1 10 0 0 0 None)
           (JArr [bench_issue]) [bench_issue] 1);
    vm_compute; reflexivity.
Defined.

(** [main_search_refused] on the bench. *)
Lemma main_search_refused_bench :
  let host := lab_host (constant_server (Response 503 None)) bench_now true in
  let yesterday := mk_datetime 2024 1 1 10 0 0 0 None in
  main host bench_world
  = (Raise (HTTPError 503),
     after_requests (tick (tick bench_world)) [search_request bench_config yesterday]).
Proof.
  destruct (main_search_refused
              (lab_host (constant_server (Response 503 None)) bench_now true)
              bench_config bench_world (tick bench_world) (tick (tick bench_world))
              bench_now (mk_datetime 2024 1 1 10 0 0 0 None) 503 None) as [H _];
    [vm_compute; reflexivity ..| |exact H].
  lia.
Defined.


(** [generate_ai_reply_no_summary] on the bench. *)
Lemma generate_ai_reply_no_summary_bench :
  generate_ai_reply (bench_host 201) bench_config (JObj [("key", JStr "TS-2")]) bench_world
  = (Ok ("Thanks for reaching out! We received **your ticket**. "
         +:+ "Our team will review this shortly and respond with next steps."),
     bench_world).
Proof.
  apply (generate_ai_reply_no_summary (bench_host 201) bench_config
           [("key", JStr "TS-2")] bench_world); by left.
Defined.

(** [process_issues_in_sequence] on the bench. *)
Lemma process_issues_in_sequence_bench :
  process_issues (bench_host 500) bench_config [bench_issue; bench_issue]
    "712020:abc" bench_world
  = process_issues (bench_host 500) bench_config [bench_issue] "712020:abc" bench_world.
Proof.
  pose proof (process_issues_in_sequence (bench_host 500) bench_config
                [bench_issue] [bench_issue] "712020:abc" bench_world) as H.
  destruct (process_issues (bench_host 500) bench_config [bench_issue]
              "712020:abc" bench_world) as [[n|e] w'] eqn:E.
  - vm_compute in E. discriminate.
  - exact H.
Defined.
